(** * Crash_Detector: the risk-scoring and trend-analysis pipeline of
      [enhanced_tracker.py], embedded in Rocq.

    Layout of the development:
    - [Py]: the Python built-ins the tracker relies on (float comparison and
      truthiness, [round(x, 1)], [int / int], ['%.Nf'] formatting, [in] on
      strings, the regular expression of the insight parser);
    - the data model (JSON values, metric dictionaries, snapshots);
    - the pure functions [calculate_volatility], [determine_signal] and
      [calculate_composite_risk_score];
    - the effectful part: a state-and-exception monad over the two persisted
      files and the trace of HTTP requests, the fetchers, the insight
      generator and [update_tracing_data];
    - the theorems.

    Python floats are IEEE 754 binary64 numbers, and so are Rocq's primitive
    floats: every float operation of the source is modelled by the
    corresponding primitive operation.

    Not modelled: the [logging] calls, the pause of [time.sleep] between two
    attempts, and the text of the prompt sent to the chat-completion
    endpoint.  The two readings of the clock are inputs of a run. *)

From Stdlib Require Import ZArith List String Ascii Bool Lia Permutation.
From Stdlib Require Import DecimalString.
From Stdlib Require Import Floats.
Import ListNotations.

Set Warnings "-inexact-float,-register-all".

Local Open Scope string_scope.
Local Open Scope Z_scope.

(* ===================================================================== *)
(** * Python built-ins *)
(* ===================================================================== *)

Module Py.

(** ** Floats *)

(** [x >= y] and [x > y] on floats; both are false when an operand is NaN. *)
Definition ge (x y : float) : bool := PrimFloat.leb y x.
Definition gt (x y : float) : bool := PrimFloat.ltb y x.
Definition lt (x y : float) : bool := PrimFloat.ltb x y.

(** [bool(x)] for a float: false exactly for [0.0] and [-0.0]. *)
Definition truthy (x : float) : bool := negb (PrimFloat.eqb x 0%float).

(** [bool(x)] for an [Optional[float]]: [None] is falsy. *)
Definition truthy_opt (x : option float) : bool :=
  match x with
  | None => false
  | Some f => truthy f
  end.

(** [n / d] rounded to the nearest integer, ties to even ([n >= 0], [d > 0]). *)
Definition round_half_even (n d : Z) : Z :=
  let (q, r) := Z.div_eucl n d in
  match Z.compare (2 * r) d with
  | Lt => q
  | Gt => q + 1
  | Eq => if Z.even q then q else q + 1
  end.

(** An integer as an unrounded binary number [m * 2^0]. *)
Definition raw_of_Z (z : Z) : spec_float :=
  match z with
  | Z0 => S754_zero false
  | Zpos p => S754_finite false p 0
  | Zneg p => S754_finite true p 0
  end.

(** The float nearest to the exact quotient [a / b] of two integers
    ([b <> 0]).  [SFdiv] rounds the exact quotient of the two mantissas once,
    whatever their size. *)
Definition nearest_quotient (a b : Z) : float :=
  SF2Prim (SFdiv prec emax (raw_of_Z a) (raw_of_Z b)).

(** [a / b] on Python ints (true division): the correctly rounded quotient.
    The caller guards [b = 0]. *)
Definition int_truediv (a b : Z) : float := nearest_quotient a b.

(** [|x| * 10^digits] rounded half-even to an integer, for a finite non-zero
    [x = (-1)^s * m * 2^e]: the digits that a correctly rounded decimal
    conversion of [x] produces. *)
Definition scaled_digits (digits : nat) (m : positive) (e : Z) : Z :=
  let n := Zpos m * 10 ^ Z.of_nat digits in
  if 0 <=? e then n * 2 ^ e else round_half_even n (2 ^ (- e)).

(** [round(x, 1)]: CPython converts [x] to the correctly rounded decimal
    with one digit after the point and reads that decimal back as the
    nearest float; NaN, infinities and integral values are returned
    unchanged. *)
Definition round1 (x : float) : float :=
  match Prim2SF x with
  | S754_finite s m e =>
      if 0 <=? e then x
      else match scaled_digits 1 m e with
           | Zpos t => SF2Prim (SFdiv prec emax (S754_finite s t 0) (raw_of_Z 10))
           | _ => SF2Prim (S754_zero s)
           end
  | _ => x
  end.

(** ** Strings *)

(** [pat in s] on strings. *)
Fixpoint contains (pat s : string) : bool :=
  String.prefix pat s ||
  match s with
  | EmptyString => false
  | String _ rest => contains pat rest
  end.

(** [s[:n]]. *)
Definition take (n : nat) (s : string) : string := String.substring 0 n s.

Definition string_of_Z_nonneg (z : Z) : string :=
  NilZero.string_of_uint (N.to_uint (Z.to_N z)).

(** [f"{x:.{digits}f}"]: fixed-point formatting, correctly rounded. *)
Definition format_fixed (digits : nat) (x : float) : string :=
  let render (s : bool) (t : Z) : string :=
    let p := 10 ^ Z.of_nat digits in
    let frac := string_of_Z_nonneg (p + t mod p) in
    (if s then "-" else EmptyString) ++ string_of_Z_nonneg (t / p) ++
    (match digits with
     | O => EmptyString
     | _ => "." ++ String.substring 1 digits frac
     end) in
  match Prim2SF x with
  | S754_nan => "nan"
  | S754_infinity s => if s then "-inf" else "inf"
  | S754_zero s => render s 0
  | S754_finite s m e => render s (scaled_digits digits m e)
  end.

(** ** The regular expression of the insight parser *)

(** Position of the first occurrence of [c] in [s]. *)
Fixpoint find_char (c : ascii) (s : string) : option nat :=
  match s with
  | EmptyString => None
  | String a rest =>
      if Ascii.eqb a c then Some O
      else option_map S (find_char c rest)
  end.

(** Position of the last occurrence of [c] in [s]. *)
Fixpoint rfind_char (c : ascii) (s : string) : option nat :=
  match s with
  | EmptyString => None
  | String a rest =>
      match rfind_char c rest with
      | Some i => Some (S i)
      | None => if Ascii.eqb a c then Some O else None
      end
  end.

(** [re.search(r'\{.*\}', content, re.DOTALL)]: the leftmost match starts at
    the first opening brace and, the star being greedy and the dot matching
    every character, ends at the last closing brace behind it.  The result
    is [group(0)], or [None] when no closing brace follows an opening one. *)
Definition search_braces (content : string) : option string :=
  match find_char "{"%char content with
  | None => None
  | Some i =>
      let tail := String.substring (S i) (String.length content) content in
      match rfind_char "}"%char tail with
      | None => None
      | Some j => Some (String.substring i (S (S j)) content)
      end
  end.

(** ** A decimal reader, for concrete runs *)

(** [float(s)] on strings is a parameter of the development (see section
    [Tracker]).  [float_of_decimal] reads the plain ASCII decimals
    [[-]digits[.digits]], on which it agrees with [float]: the value is the
    correctly rounded quotient of the digit string by a power of ten.
    Every other string is rejected. *)
Definition digit_of (c : ascii) : option Z :=
  let n := Z.of_nat (nat_of_ascii c) in
  if (48 <=? n) && (n <=? 57) then Some (n - 48) else None.

(** Reads digits into [acc]; [frac] counts the digits behind the point,
    [None] before the point is met. [seen] records that a digit was read
    since the start or the point. *)
Fixpoint read_digits (s : string) (acc : Z) (frac : option nat) (seen : bool)
  : option (Z * nat) :=
  match s with
  | EmptyString =>
      if seen then Some (acc, match frac with Some k => k | None => O end)
      else None
  | String c rest =>
      match digit_of c with
      | Some d =>
          read_digits rest (10 * acc + d) (option_map S frac) true
      | None =>
          if Ascii.eqb c "."%char then
            match frac with
            | None => if seen then read_digits rest acc (Some O) false else None
            | Some _ => None
            end
          else None
      end
  end.

Definition float_of_decimal (s : string) : option float :=
  let (neg, body) :=
    match s with
    | String "-"%char rest => (true, rest)
    | _ => (false, s)
    end in
  match read_digits body 0 None false with
  | None => None
  | Some (m, k) =>
      let f := nearest_quotient m (10 ^ Z.of_nat k) in
      Some (if neg then PrimFloat.opp f else f)
  end.

End Py.

(* ===================================================================== *)
(** * Data model *)
(* ===================================================================== *)

(** A decoded JSON document, as [json.load] and [response.json()] return
    it.  An object is the list of its items, keys unique.  JSON numbers are
    held as floats. *)
Inductive json : Type :=
| JNull
| JBool (b : bool)
| JNum (f : float)
| JStr (s : string)
| JArr (items : list json)
| JObj (items : list (string * json)).

(** A Python number: [int] or [float]. *)
Inductive number : Type :=
| PInt (z : Z)
| PFloat (f : float).

(** [d.get(k, default)] on a dictionary held as a list of items. *)
Fixpoint dict_get {A : Type} (d : list (string * A)) (k : string) (default : A) : A :=
  match d with
  | [] => default
  | (k', v) :: rest => if String.eqb k' k then v else dict_get rest k default
  end.

(** [k in d] on a dictionary. *)
Definition dict_mem {A : Type} (d : list (string * A)) (k : string) : bool :=
  existsb (fun kv => String.eqb (fst kv) k) d.

(** [d[k]] on a dictionary; [None] stands for [KeyError]. *)
Fixpoint dict_lookup {A : Type} (d : list (string * A)) (k : string) : option A :=
  match d with
  | [] => None
  | (k', v) :: rest => if String.eqb k' k then Some v else dict_lookup rest k
  end.

(** One element of a snapshot's ["metrics"] array.  The keys ["name"] and
    ["value"] are read with [metric[...]], ["signal"] with [metric.get];
    ["volatility_24h"] is only present on the USD/JPY metric.  [value] is a
    JSON value: the tracker writes strings, a history file may hold
    anything. *)
Record metric : Type := {
  name : string;
  value : json;
  signal : option string;
  volatility_24h : option string
}.

(** The dictionary returned by [calculate_composite_risk_score]. *)
Record risk : Type := {
  score : number;
  level : string;
  color : string
}.

(** The dictionary returned by [generate_ai_insights]; the two fields come
    out of the model's JSON answer and need not be strings. *)
Record insights : Type := {
  stock_picks : json;
  tasi_opportunities : json
}.

(** [final_data], and an entry of the history.  [metrics] is read with
    [entry.get('metrics', [])]: [None] is an entry without that key. *)
Record snapshot : Type := {
  last_update : string;
  target_date : string;
  days_remaining : Z;
  risk_assessment : risk;
  metrics : option (list metric);
  ai_insights : insights
}.

(** ** Configuration constants *)

Definition JPY_STRESS_THRESHOLD : float := 155.0.
Definition JPY_CRITICAL_THRESHOLD : float := 160.0.
Definition CNH_STRESS_THRESHOLD : float := 7.3.
Definition CNH_CRITICAL_THRESHOLD : float := 7.5.
Definition MOVE_PROXY_HIGH : float := 60.0.
Definition MOVE_PROXY_CRITICAL : float := 80.0.
Definition JPY_VOLATILITY_THRESHOLD : float := 2.0.

(** The metric names and the signal, level and sentinel strings. *)
Definition USD_JPY : string := "USD/JPY Exchange Rate".
Definition USD_CNH : string := "USD/CNH (Offshore Yuan) Value".
Definition MOVE_INDEX : string := "MOVE Index Volatility (Proxy)".
Definition TREASURY_10Y : string := "10-Year Treasury Yield".

Definition DATA_ERROR : string := "DATA ERROR".
Definition CRITICAL_SHOCK : string := "CRITICAL SHOCK".
Definition HIGH_STRESS_HIGH_VOLATILITY : string := "HIGH STRESS + HIGH VOLATILITY".
Definition HIGH_STRESS : string := "HIGH STRESS".
Definition RISING_STRESS : string := "RISING STRESS".
Definition NORMAL : string := "NORMAL".

(* ===================================================================== *)
(** * Signal classifier: [determine_signal] *)
(* ===================================================================== *)

(** [volatility and volatility >= JPY_VOLATILITY_THRESHOLD]. *)
Definition volatility_gate (volatility : option float) : bool :=
  match volatility with
  | None => false
  | Some v => Py.truthy v && Py.ge v JPY_VOLATILITY_THRESHOLD
  end.

Definition determine_signal (metric_name : string) (value : option float)
    (volatility : option float) : string :=
  match value with
  | None => DATA_ERROR
  | Some value =>
      if String.eqb metric_name USD_JPY then
        (* the volatility block returns from its two branches only *)
        let gated :=
          if volatility_gate volatility then
            if Py.ge value JPY_CRITICAL_THRESHOLD then Some CRITICAL_SHOCK
            else if Py.ge value JPY_STRESS_THRESHOLD then Some HIGH_STRESS_HIGH_VOLATILITY
            else None
          else None in
        match gated with
        | Some s => s
        | None =>
            if Py.ge value JPY_CRITICAL_THRESHOLD then CRITICAL_SHOCK
            else if Py.ge value JPY_STRESS_THRESHOLD then HIGH_STRESS
            else if Py.gt value 145.0 then RISING_STRESS
            else NORMAL
        end
      else if String.eqb metric_name USD_CNH then
        if Py.ge value CNH_CRITICAL_THRESHOLD then CRITICAL_SHOCK
        else if Py.ge value CNH_STRESS_THRESHOLD then HIGH_STRESS
        else if Py.gt value 7.15 then RISING_STRESS
        else NORMAL
      else if String.eqb metric_name MOVE_INDEX then
        if Py.ge value MOVE_PROXY_CRITICAL then CRITICAL_SHOCK
        else if Py.ge value MOVE_PROXY_HIGH then HIGH_STRESS
        else if Py.gt value 40.0 then RISING_STRESS
        else NORMAL
      else if String.eqb metric_name TREASURY_10Y then
        if Py.ge value 5.5 then CRITICAL_SHOCK
        else if Py.ge value 5.0 then HIGH_STRESS
        else if Py.ge value 4.5 then RISING_STRESS
        else NORMAL
      else NORMAL
  end.

(* ===================================================================== *)
(** * Composite risk scorer: [calculate_composite_risk_score] *)
(* ===================================================================== *)

Definition weights : list (string * Z) :=
  [ (CRITICAL_SHOCK, 100);
    (HIGH_STRESS_HIGH_VOLATILITY, 80);
    (HIGH_STRESS, 60);
    (RISING_STRESS, 30);
    (NORMAL, 0);
    (DATA_ERROR, 0) ].

(** [metric.get('signal', 'NORMAL')]. *)
Definition signal_of (m : metric) : string :=
  match signal m with
  | Some s => s
  | None => NORMAL
  end.

(** One turn of the loop over [metrics], on the pair
    [(score, total_weight)]. *)
Definition score_step (acc : Z * Z) (m : metric) : Z * Z :=
  let (score, total_weight) := acc in
  let signal := signal_of m in
  (score + dict_get weights signal 0,
   total_weight + (if negb (String.eqb signal DATA_ERROR) then 1 else 0)).

Definition calculate_composite_risk_score (metrics : list metric) : risk :=
  let (score, total_weight) := fold_left score_step metrics (0, 0) in
  if total_weight =? 0 then
    {| score := PInt 0; level := "UNKNOWN"; color := "#6c757d" |}
  else
    let avg_score := Py.int_truediv score total_weight in
    if Py.ge avg_score 70 then
      {| score := PFloat (Py.round1 avg_score); level := "CRITICAL"; color := "#dc3545" |}
    else if Py.ge avg_score 45 then
      {| score := PFloat (Py.round1 avg_score); level := "ELEVATED"; color := "#ffc107" |}
    else if Py.ge avg_score 20 then
      {| score := PFloat (Py.round1 avg_score); level := "MODERATE"; color := "#fd7e14" |}
    else
      {| score := PFloat (Py.round1 avg_score); level := "LOW"; color := "#28a745" |}.

(* ===================================================================== *)
(** * Exceptions, the outside world and the monad of a cycle *)
(* ===================================================================== *)

(** The exception classes that the fetchers can meet.  [RequestException]
    stands for the whole hierarchy of [requests.exceptions]. *)
Inductive exn : Type :=
| RequestException
| ValueError
| TypeError
| KeyError
| IndexError
| AttributeError.

(** The HTTP requests that the tracker issues. *)
Inductive request : Type :=
| FxRate (from_currency to_currency : string)
| FederalFundsRate
| ChatCompletion.

Definition request_eqb (a b : request) : bool :=
  match a, b with
  | FxRate f t, FxRate f' t' => String.eqb f f' && String.eqb t t'
  | FederalFundsRate, FederalFundsRate => true
  | ChatCompletion, ChatCompletion => true
  | _, _ => false
  end.

(** What [requests.get] followed by [raise_for_status] and
    [response.json()] yields.  [requests] raises its own [JSONDecodeError],
    a [RequestException], on a body that is not JSON. *)
Inductive http_result : Type :=
| RequestFailed
| BodyNotJson
| Body (data : json).

(** What the chat-completion call yields up to the point where [content]
    is bound: an exception [e] with [str(e) = msg] (transport failure, HTTP
    status, a reply without [choices[0].message.content]), or the text. *)
Inductive ai_reply : Type :=
| AiRaised (msg : string)
| AiContent (content : string).

(** How [open(path, 'w')] followed by [json.dump] ends: the document is
    written; [open] raises and the file is untouched; [json.dump] raises an
    [OSError] on the way and leaves a truncated file; or [json.dump] raises
    an exception [e] that is no [OSError] (a [UnicodeEncodeError] on a lone
    surrogate that came with the reply of the model, a [RecursionError]) and
    leaves a truncated file. *)
Inductive write_result : Type :=
| Written
| OpenFails
| DumpFails
| DumpRaises (e : exn).

(** The inputs of one run that the source does not decide: configuration,
    the network, the clock and how the two writes end.  [http_get r n]
    answers the request [r] when [n] identical requests were issued before
    it. *)
Record env : Type := {
  API_KEY : option string;
  OPENROUTER_API_KEY : option string;
  http_get : request -> nat -> http_result;
  chat_completion : list metric -> ai_reply;
  clock_utc : string;
  clock_days_remaining : Z;
  data_write : write_result;
  history_write : write_result
}.

(** A file on disk. [Unreadable]: [json.load] raises on it. *)
Inductive file (A : Type) : Type :=
| Missing
| Unreadable
| Holds (content : A).
Arguments Missing {A}.
Arguments Unreadable {A}.
Arguments Holds {A} content.

(** The state that a run changes: the two files and the requests sent.
    The history file is taken to hold a JSON array of objects. *)
Record world : Type := {
  data_file : file snapshot;
  history_file : file (list snapshot);
  requests_sent : list request
}.

Inductive outcome (A : Type) : Type :=
| Ret (a : A)
| Raise (e : exn).
Arguments Ret {A} a.
Arguments Raise {A} e.

(** Computations that change the world and may raise; the world reached
    when an exception is raised is kept. *)
Definition M (A : Type) : Type := world -> outcome A * world.

Definition ret {A : Type} (a : A) : M A := fun w => (Ret a, w).

Definition raise {A : Type} (e : exn) : M A := fun w => (Raise e, w).

Definition bind {A B : Type} (c : M A) (k : A -> M B) : M B :=
  fun w =>
    match c w with
    | (Ret a, w') => k a w'
    | (Raise e, w') => (Raise e, w')
    end.

Declare Scope cycle_scope.
Delimit Scope cycle_scope with cycle.
Notation "x <- c ;; k" := (bind c (fun x => k))
  (at level 61, c at next level, right associativity) : cycle_scope.
Notation "c ;;; k" := (bind c (fun _ => k))
  (at level 61, right associativity) : cycle_scope.

(** The error monad of an expression that may raise. *)
Definition ebind {A B : Type} (c : exn + A) (k : A -> exn + B) : exn + B :=
  match c with
  | inl e => inl e
  | inr a => k a
  end.

Declare Scope expr_scope.
Delimit Scope expr_scope with expr.
Notation "x <-- c ;; k" := (ebind c (fun x => k))
  (at level 61, c at next level, right associativity) : expr_scope.

(** [bool(key)] on [os.environ.get(...)]: [None] and [''] are falsy. *)
Definition key_present (k : option string) : bool :=
  match k with
  | Some (String _ _) => true
  | _ => false
  end.

(* ===================================================================== *)
(** * The tracker *)
(* ===================================================================== *)

Section Tracker.

(** Two built-ins are parameters: [float(s)] on a string, [None] standing
    for [ValueError]; and [json.loads(s)] on a text that starts with an
    opening brace, which yields the items of the decoded object or raises a
    [JSONDecodeError] with the given message. *)
Variable float_of_str : string -> option float.
Variable json_loads : string -> string + list (string * json).

(** ** Operations on decoded JSON *)

(** [float(v)]. *)
Definition py_float (v : json) : exn + float :=
  match v with
  | JNum f => inr f
  | JStr s =>
      match float_of_str s with
      | Some f => inr f
      | None => inl ValueError
      end
  | JBool b => inr (if b then 1%float else 0%float)
  | JNull | JArr _ | JObj _ => inl TypeError
  end.

(** [v == s] for a string [s]. *)
Definition is_str (v : json) (s : string) : bool :=
  match v with
  | JStr s' => String.eqb s' s
  | _ => false
  end.

(** [k in c] for a string [k]. *)
Definition py_in (k : string) (c : json) : exn + bool :=
  match c with
  | JObj items => inr (dict_mem items k)
  | JArr items => inr (existsb (fun v => is_str v k) items)
  | JStr s => inr (Py.contains k s)
  | JNull | JBool _ | JNum _ => inl TypeError
  end.

(** [c[k]] for a string [k]. *)
Definition py_getitem (c : json) (k : string) : exn + json :=
  match c with
  | JObj items =>
      match dict_lookup items k with
      | Some v => inr v
      | None => inl KeyError
      end
  | _ => inl TypeError
  end.

(** [c.get(k)]. *)
Definition py_get (c : json) (k : string) : exn + json :=
  match c with
  | JObj items => inr (dict_get items k JNull)
  | _ => inl AttributeError
  end.

(** [len(c)]. *)
Definition py_len (c : json) : exn + nat :=
  match c with
  | JObj items => inr (List.length items)
  | JArr items => inr (List.length items)
  | JStr s => inr (String.length s)
  | JNull | JBool _ | JNum _ => inl TypeError
  end.

(** [c[0]]. *)
Definition py_first (c : json) : exn + json :=
  match c with
  | JArr (v :: _) => inr v
  | JArr [] => inl IndexError
  | JStr (String a _) => inr (JStr (String a EmptyString))
  | JStr EmptyString => inl IndexError
  | JObj _ => inl KeyError
  | JNull | JBool _ | JNum _ => inl TypeError
  end.

(** ** Volatility calculator: [calculate_volatility] *)

(** The inner loop over the metrics of one entry, on the variable
    [yesterday]: the first metric with the name, a value other than the
    sentinel and a value that [float] accepts is assigned and ends the loop;
    [ValueError] and [TypeError] move on to the next metric. *)
Fixpoint scan_metrics (metric_name : string) (ms : list metric)
    (yesterday : option float) : option float :=
  match ms with
  | [] => yesterday
  | metric :: rest =>
      if String.eqb (name metric) metric_name
         && negb (is_str (value metric) DATA_ERROR) then
        match py_float (value metric) with
        | inr f => Some f
        | inl _ => scan_metrics metric_name rest yesterday
        end
      else scan_metrics metric_name rest yesterday
  end.

(** The outer loop, over the entries from the newest to the oldest; it
    ends on [if yesterday: break]. *)
Fixpoint scan_entries (metric_name : string) (entries : list snapshot)
    (yesterday : option float) : option float :=
  match entries with
  | [] => yesterday
  | entry :: rest =>
      let yesterday :=
        scan_metrics metric_name
          (match metrics entry with Some ms => ms | None => [] end)
          yesterday in
      if Py.truthy_opt yesterday then yesterday
      else scan_entries metric_name rest yesterday
  end.

Definition calculate_volatility (current_value : option float)
    (history : list snapshot) (metric_name : string) : option float :=
  match history, current_value with
  | [], _ => None
  | _, None => None
  | _, Some current =>
      let yesterday := scan_entries metric_name (rev history) None in
      match yesterday with
      | Some y =>
          if Py.truthy y then Some (PrimFloat.abs (PrimFloat.sub current y))
          else None
      | None => None
      end
  end.

(** ** Metric fetchers *)

(** The inputs of the run. *)
Variable E : env.

(** [requests.get(URL)] with [raise_for_status] and [response.json()]: the
    request is recorded and the network answers. *)
Definition send (r : request) : M http_result :=
  fun w =>
    let n := List.length (filter (request_eqb r) (requests_sent w)) in
    (Ret (http_get E r n),
     {| data_file := data_file w;
        history_file := history_file w;
        requests_sent := requests_sent w ++ [r] |}).

Local Open Scope expr_scope.

(** The body of the [try] of [fetch_fx_rate], after the request. *)
Definition fx_rate_of (r : http_result) : exn + option float :=
  match r with
  | RequestFailed | BodyNotJson => inl RequestException
  | Body data =>
      rate_limited <-- py_in "Note" data ;;
      if rate_limited : bool then
        _ <-- py_getitem data "Note" ;;
        inr None
      else
        failed <-- py_in "Error Message" data ;;
        if failed : bool then
          _ <-- py_get data "Error Message" ;;
          inr None
        else
          has_block <-- py_in "Realtime Currency Exchange Rate" data ;;
          has_rate <--
            (if has_block : bool then
               block <-- py_getitem data "Realtime Currency Exchange Rate" ;;
               py_in "5. Exchange Rate" block
             else inr false) ;;
          if has_rate : bool then
            block <-- py_getitem data "Realtime Currency Exchange Rate" ;;
            v <-- py_getitem block "5. Exchange Rate" ;;
            rate <-- py_float v ;;
            inr (Some rate)
          else inr None
  end.

(** The body of the [try] of [fetch_treasury_yield_10y]. *)
Definition treasury_yield_of (r : http_result) : exn + option float :=
  match r with
  | RequestFailed | BodyNotJson => inl RequestException
  | Body data =>
      has_data <-- py_in "data" data ;;
      non_empty <--
        (if has_data : bool then
           rows <-- py_getitem data "data" ;;
           n <-- py_len rows ;;
           inr (Nat.ltb 0 n)
         else inr false) ;;
      if non_empty : bool then
        rows <-- py_getitem data "data" ;;
        latest <-- py_first rows ;;
        v <-- py_getitem latest "value" ;;
        rate <-- py_float v ;;
        inr (Some rate)
      else inr None
  end.

Local Close Scope expr_scope.
Local Open Scope cycle_scope.

(** [symbol[:3]] and [symbol[3:]]. *)
Definition fx_request (symbol : string) : request :=
  FxRate (Py.take 3 symbol)
         (String.substring 3 (String.length symbol - 3) symbol).

(** The retry loop of [fetch_fx_rate]: only a [RequestException] is caught
    and leads to the next attempt; after the last attempt the function
    returns [None]. *)
Fixpoint fx_attempts (attempts : nat) (r : request) : M (option float) :=
  match attempts with
  | O => ret None
  | S attempts' =>
      response <- send r ;;
      match fx_rate_of response with
      | inr rate => ret rate
      | inl RequestException => fx_attempts attempts' r
      | inl e => raise e
      end
  end.

Definition fetch_fx_rate (symbol : string) : M (option float) :=
  fx_attempts 3 (fx_request symbol).

(** [fetch_treasury_yield_10y]: [except Exception] catches everything. *)
Definition fetch_treasury_yield_10y : M (option float) :=
  response <- send FederalFundsRate ;;
  match treasury_yield_of response with
  | inr rate => ret rate
  | inl _ => ret None
  end.

(** ** Insight generator: [generate_ai_insights] *)

(** The [except Exception] handler: the placeholder chosen from [str(e)]. *)
Definition ui_error (error_str : string) : string :=
  if Py.contains "401" error_str then
    "AI Configuration Error: Invalid API Key (401)"
  else if Py.contains "429" error_str then
    "AI Busy: Rate Limit Exceeded (429)"
  else if Py.contains "Expecting value" error_str || Py.contains "JSON" error_str then
    "AI Error: Response Parsing Failed"
  else
    "AI Analysis Failed: " ++ Py.take 30 error_str ++ "...".

(** The body of the [try]: the insights, or [str(e)] of the exception
    raised. *)
Definition insights_of (reply : ai_reply) : string + insights :=
  match reply with
  | AiRaised msg => inl msg
  | AiContent content =>
      match Py.search_braces content with
      | Some json_str =>
          match json_loads json_str with
          | inr parsed_content =>
              inr {| stock_picks :=
                       dict_get parsed_content "stock_picks" (JStr "Analysis Data Missing");
                     tasi_opportunities :=
                       dict_get parsed_content "tasi_opportunities" (JStr "Analysis Data Missing") |}
          | inl msg => inl msg
          end
      | None => inl "Could not extract JSON from AI response"
      end
  end.

(** [requests.post] to the chat-completion endpoint. *)
Definition post_chat (metrics : list metric) : M ai_reply :=
  fun w =>
    (Ret (chat_completion E metrics),
     {| data_file := data_file w;
        history_file := history_file w;
        requests_sent := requests_sent w ++ [ChatCompletion] |}).

Definition generate_ai_insights (metrics : list metric) : M insights :=
  if negb (key_present (OPENROUTER_API_KEY E)) then
    ret {| stock_picks := JStr "AI Analysis Unavailable (Missing API Key)";
           tasi_opportunities := JStr "AI Analysis Unavailable (Missing API Key)" |}
  else
    reply <- post_chat metrics ;;
    match insights_of reply with
    | inr result => ret result
    | inl error_str =>
        ret {| stock_picks := JStr (ui_error error_str);
               tasi_opportunities := JStr (ui_error error_str) |}
    end.

(** ** History store *)

(** [load_historical_data]: the list in the file, [[]] when the file is
    missing or cannot be read. *)
Definition load_historical_data : M (list snapshot) :=
  fun w =>
    (Ret (match history_file w with
          | Holds history => history
          | Missing | Unreadable => []
          end), w).

(** [l[-n:]] for a positive [n]. *)
Definition last_entries {A : Type} (n : nat) (l : list A) : list A :=
  skipn (List.length l - n) l.

(** The file after a write of [content]. *)
Definition written {A : Type} (r : write_result) (content : A) (before : file A) : file A :=
  match r with
  | Written => Holds content
  | OpenFails => before
  | DumpFails | DumpRaises _ => Unreadable
  end.

(** [save_historical_data]: every exception of the write is caught. *)
Definition save_historical_data (history : list snapshot) : M unit :=
  fun w =>
    let history := last_entries 30 history in
    (Ret tt,
     {| data_file := data_file w;
        history_file := written (history_write E) history (history_file w);
        requests_sent := requests_sent w |}).

(** ** Snapshot assembler: [update_tracing_data] *)

(** [f"{x:.{digits}f}{suffix}" if x else "DATA ERROR"]. *)
Definition value_text (digits : nat) (suffix : string) (x : option float) : json :=
  match x with
  | Some f =>
      if Py.truthy f then JStr (Py.format_fixed digits f ++ suffix)
      else JStr DATA_ERROR
  | None => JStr DATA_ERROR
  end.

Definition move_proxy : option float := Some 45.0%float.

(** The list [new_metrics], from the history loaded and the three values
    fetched. *)
Definition build_metrics (history : list snapshot)
    (usd_jpy usd_cnh treasury_10y : option float) : list metric :=
  let jpy_volatility :=
    if Py.truthy_opt usd_jpy then calculate_volatility usd_jpy history USD_JPY
    else None in
  [ {| name := USD_JPY;
       value := value_text 4 EmptyString usd_jpy;
       signal := Some (determine_signal USD_JPY usd_jpy jpy_volatility);
       volatility_24h :=
         Some (match jpy_volatility with
               | Some v => if Py.truthy v then Py.format_fixed 2 v else "N/A"
               | None => "N/A"
               end) |};
    {| name := USD_CNH;
       value := value_text 4 EmptyString usd_cnh;
       signal := Some (determine_signal USD_CNH usd_cnh None);
       volatility_24h := None |};
    {| name := MOVE_INDEX;
       value := value_text 2 EmptyString move_proxy;
       signal := Some (determine_signal MOVE_INDEX move_proxy None);
       volatility_24h := None |};
    {| name := TREASURY_10Y;
       value := value_text 2 "%" treasury_10y;
       signal := Some (determine_signal TREASURY_10Y treasury_10y None);
       volatility_24h := None |} ].

(** [final_data]; the two clock readings come from the environment. *)
Definition build_final_data (new_metrics : list metric) (ai : insights) : snapshot :=
  {| last_update := clock_utc E;
     target_date := "2026-11-28";
     days_remaining := clock_days_remaining E;
     risk_assessment := calculate_composite_risk_score new_metrics;
     metrics := Some new_metrics;
     ai_insights := ai |}.

(** Writing [DATA_FILE]: an [IOError] is caught, and nothing else. *)
Definition write_data_file (final_data : snapshot) : M unit :=
  fun w =>
    (match data_write E with
     | DumpRaises e => Raise e
     | Written | OpenFails | DumpFails => Ret tt
     end,
     {| data_file := written (data_write E) final_data (data_file w);
        history_file := history_file w;
        requests_sent := requests_sent w |}).

Definition update_tracing_data : M unit :=
  if negb (key_present (API_KEY E)) then ret tt
  else
    history <- load_historical_data ;;
    usd_jpy <- fetch_fx_rate "USDJPY" ;;
    usd_cnh <- fetch_fx_rate "USDCNH" ;;
    treasury_10y <- fetch_treasury_yield_10y ;;
    let new_metrics := build_metrics history usd_jpy usd_cnh treasury_10y in
    ai <- generate_ai_insights new_metrics ;;
    let final_data := build_final_data new_metrics ai in
    write_data_file final_data ;;;
    save_historical_data (history ++ [final_data]).

End Tracker.

(* ===================================================================== *)
(** * Reference definitions, in the specification's words *)
(* ===================================================================== *)

(** The fixed severity weights of the specification. *)
Definition severity_weight (signal : string) : Z :=
  if String.eqb signal CRITICAL_SHOCK then 100
  else if String.eqb signal HIGH_STRESS_HIGH_VOLATILITY then 80
  else if String.eqb signal HIGH_STRESS then 60
  else if String.eqb signal RISING_STRESS then 30
  else 0.

Definition non_error (m : metric) : bool :=
  negb (String.eqb (signal_of m) DATA_ERROR).

(** Sum of the weights of all metrics. *)
Definition sum_of_weights (ms : list metric) : Z :=
  fold_right Z.add 0 (map (fun m => severity_weight (signal_of m)) ms).

(** Number of metrics whose signal is not DATA_ERROR. *)
Definition count_non_error (ms : list metric) : Z :=
  Z.of_nat (List.length (filter non_error ms)).

(** The unweighted mean of the weights over the non-DATA_ERROR metrics. *)
Definition mean_weight (ms : list metric) : float :=
  Py.int_truediv (sum_of_weights ms) (count_non_error ms).

(** The tiers of the specification. *)
Definition tier_of (avg : float) : string :=
  if Py.ge avg 70 then "CRITICAL"
  else if Py.ge avg 45 then "ELEVATED"
  else if Py.ge avg 20 then "MODERATE"
  else "LOW".

Section VolatilityReference.

Variable float_of_str : string -> option float.

(** The value of the first metric of an entry that has the name and whose
    stored value is a number that can be read, the DATA_ERROR marker
    excluded. *)
Definition matching_value (metric_name : string) (entry : snapshot) : option float :=
  let readable (m : metric) : option float :=
    if String.eqb (name m) metric_name
       && negb (is_str (value m) DATA_ERROR) then
      match py_float float_of_str (value m) with
      | inr f => Some f
      | inl _ => None
      end
    else None in
  fold_right (fun m later => match readable m with Some f => Some f | None => later end)
    None (match metrics entry with Some ms => ms | None => [] end).

(** The first match, scanning from the most recent entry to the oldest. *)
Fixpoint most_recent_match (metric_name : string) (newest_first : list snapshot)
  : option float :=
  match newest_first with
  | [] => None
  | entry :: older =>
      match matching_value metric_name entry with
      | Some y => Some y
      | None => most_recent_match metric_name older
      end
  end.

(** The volatility of the specification: the absolute difference with the
    most recent match, absent without a match or a current value. *)
Definition volatility_reference (current : option float) (history : list snapshot)
    (metric_name : string) : option float :=
  match current, most_recent_match metric_name (rev history) with
  | Some c, Some y => Some (PrimFloat.abs (PrimFloat.sub c y))
  | _, _ => None
  end.

(** No entry stores, under the metric's name, a value that reads as zero. *)
Definition zero_free (metric_name : string) (entries : list snapshot) : Prop :=
  forall entry y,
    In entry entries ->
    matching_value metric_name entry = Some y ->
    Py.truthy y = true.

End VolatilityReference.

(** A metric that shows the error sentinel as its value, carries the signal
    NORMAL and adds one to the divisor of the composite score. *)
Definition sentinel_yet_counted (m : metric) : Prop :=
  value m = JStr DATA_ERROR /\
  signal m = Some NORMAL /\
  forall score0 total0 : Z, score_step (score0, total0) m = (score0, total0 + 1).

(** The placeholder pair of a reply that cannot be parsed. *)
Definition parsing_failed : insights :=
  {| stock_picks := JStr "AI Error: Response Parsing Failed";
     tasi_opportunities := JStr "AI Error: Response Parsing Failed" |}.

(** The messages that the handler of the insight generator files under
    parse failures: no "401", no "429", and "Expecting value" or "JSON". *)
Definition parse_failure_message (msg : string) : bool :=
  negb (Py.contains "401" msg) && negb (Py.contains "429" msg) &&
  (Py.contains "Expecting value" msg || Py.contains "JSON" msg).

(** No object comes out of the reply and the failure reads as a parse
    failure: either no pair of braces is found, or [json.loads] rejects the
    span found with such a message. *)
Definition unparseable (json_loads : string -> string + list (string * json))
    (content : string) : Prop :=
  Py.search_braces content = None \/
  exists span msg,
    Py.search_braces content = Some span /\
    json_loads span = inl msg /\
    parse_failure_message msg = true.

(** The history that a cycle starts from. *)
Definition loaded_history (w : world) : list snapshot :=
  match history_file w with
  | Holds history => history
  | Missing | Unreadable => []
  end.

(* ===================================================================== *)
(** * Concrete inputs *)
(* ===================================================================== *)

Definition no_insights : insights :=
  {| stock_picks := JStr "-"; tasi_opportunities := JStr "-" |}.

(** A metric that carries only a signal. *)
Definition with_signal (s : string) : metric :=
  {| name := MOVE_INDEX; value := JStr "45.00"; signal := Some s; volatility_24h := None |}.

(** An entry of the history holding one USD/JPY value. *)
Definition jpy_entry (v : json) : snapshot :=
  {| last_update := "2026-01-01 00:00:00 UTC";
     target_date := "2026-11-28";
     days_remaining := 331;
     risk_assessment := {| score := PFloat 0; level := "LOW"; color := "#28a745" |};
     metrics := Some [ {| name := USD_JPY; value := v;
                          signal := Some NORMAL; volatility_24h := Some "N/A" |} ];
     ai_insights := no_insights |}.

(** The four signals of a cycle in which USD/JPY is above 160, USD/CNH is
    calm and the yield could not be fetched. *)
Definition yield_fetch_failed : list metric :=
  [ with_signal CRITICAL_SHOCK; with_signal NORMAL;
    with_signal RISING_STRESS; with_signal DATA_ERROR ].

Definition one_critical_of_four : list metric :=
  [ with_signal CRITICAL_SHOCK; with_signal NORMAL;
    with_signal NORMAL; with_signal NORMAL ].

Definition all_four_failed : list metric :=
  [ with_signal DATA_ERROR; with_signal DATA_ERROR;
    with_signal DATA_ERROR; with_signal DATA_ERROR ].

(** The body of a currency-rate answer with the given rate field. *)
Definition fx_body (rate : json) : http_result :=
  Body (JObj [("Realtime Currency Exchange Rate",
               JObj [("5. Exchange Rate", rate)])]).

Definition yield_body (rate : json) : http_result :=
  Body (JObj [("data", JArr [JObj [("date", JStr "2026-01-01"); ("value", rate)]])]).

(** [json.loads] never reached, or failing with the usual message. *)
Definition no_json (s : string) : string + list (string * json) :=
  inl "Expecting value: line 1 column 1 (char 0)".

(** A run where every provider answers and the model replies in prose. *)
Definition calm_day : env :=
  {| API_KEY := Some "demo";
     OPENROUTER_API_KEY := Some "sk-or-demo";
     http_get := fun r _ =>
       match r with
       | FxRate _ "JPY" => fx_body (JStr "150.2500")
       | FxRate _ _ => fx_body (JStr "7.1000")
       | _ => yield_body (JStr "4.33")
       end;
     chat_completion := fun _ => AiContent "I cannot help with that.";
     clock_utc := "2026-01-02 06:00:00 UTC";
     clock_days_remaining := 329;
     data_write := Written;
     history_write := Written |}.

(** The same run without the financial-data credential. *)
Definition no_credential : env :=
  {| API_KEY := None;
     OPENROUTER_API_KEY := OPENROUTER_API_KEY calm_day;
     http_get := http_get calm_day;
     chat_completion := chat_completion calm_day;
     clock_utc := clock_utc calm_day;
     clock_days_remaining := clock_days_remaining calm_day;
     data_write := Written;
     history_write := Written |}.

(** The same run where the providers send a rate field that is no number,
    for USD/JPY and for the yield. *)
Definition malformed_rate : env :=
  {| API_KEY := API_KEY calm_day;
     OPENROUTER_API_KEY := OPENROUTER_API_KEY calm_day;
     http_get := fun r n =>
       match r with
       | FxRate _ "JPY" => fx_body (JStr "N/A")
       | FxRate _ _ => http_get calm_day r n
       | _ => yield_body (JStr "N/A")
       end;
     chat_completion := chat_completion calm_day;
     clock_utc := clock_utc calm_day;
     clock_days_remaining := clock_days_remaining calm_day;
     data_write := Written;
     history_write := Written |}.

(** The same run where the model replies with an object whose key is not
    quoted, and [json.loads] on that text: it raises a [JSONDecodeError]
    with the message below. *)
Definition unquoted_key_reply : env :=
  {| API_KEY := API_KEY calm_day;
     OPENROUTER_API_KEY := OPENROUTER_API_KEY calm_day;
     http_get := http_get calm_day;
     chat_completion := fun _ => AiContent "{oops}";
     clock_utc := clock_utc calm_day;
     clock_days_remaining := clock_days_remaining calm_day;
     data_write := Written;
     history_write := Written |}.

Definition rejects_unquoted_key (s : string) : string + list (string * json) :=
  inl "Expecting property name enclosed in double quotes: line 1 column 2 (char 1)".

(** The insights of the current-snapshot file. *)
Definition insights_written (w : world) : option insights :=
  match data_file w with
  | Holds final_data => Some (ai_insights final_data)
  | Missing | Unreadable => None
  end.

Definition fresh_disk : world :=
  {| data_file := Missing; history_file := Missing; requests_sent := [] |}.

(** A disk whose history holds the given entries. *)
Definition disk_with (history : list snapshot) : world :=
  {| data_file := Missing; history_file := Holds history; requests_sent := [] |}.

(** Thirty-one entries, told apart by their day count. *)
Definition numbered_entry (n : nat) : snapshot :=
  {| last_update := "2026-01-01 00:00:00 UTC";
     target_date := "2026-11-28";
     days_remaining := Z.of_nat n;
     risk_assessment := {| score := PFloat 0; level := "LOW"; color := "#28a745" |};
     metrics := Some [];
     ai_insights := no_insights |}.

Definition thirty_one_entries : list snapshot := map numbered_entry (seq 0 31).

(* ===================================================================== *)
(** * Further definitions *)
(* ===================================================================== *)

(** [fetch_vix_index]: a placeholder of the source; it sends nothing and
    returns [None]. *)
Definition fetch_vix_index : M (option float) := ret None.

(** The six signal labels. *)
Definition signal_labels : list string :=
  [ NORMAL; RISING_STRESS; HIGH_STRESS; HIGH_STRESS_HIGH_VOLATILITY;
    CRITICAL_SHOCK; DATA_ERROR ].

(** The four metric names of a snapshot, in their order. *)
Definition metric_names : list string :=
  [ USD_JPY; USD_CNH; MOVE_INDEX; TREASURY_10Y ].

(** Both files are the same in the two worlds. *)
Definition same_files (w w' : world) : Prop :=
  data_file w' = data_file w /\ history_file w' = history_file w.

(** The number of requests [r] sent so far. *)
Definition sent_before (r : request) (w : world) : nat :=
  List.length (filter (request_eqb r) (requests_sent w)).

(** The result that every branch of the handler of the insight generator
    builds: one placeholder in both fields. *)
Definition placeholder_pair (text : string) : insights :=
  {| stock_picks := JStr text; tasi_opportunities := JStr text |}.

(** A network on which no request gets through. *)
Definition network_down : env :=
  {| API_KEY := API_KEY calm_day;
     OPENROUTER_API_KEY := OPENROUTER_API_KEY calm_day;
     http_get := fun _ _ => RequestFailed;
     chat_completion := fun _ => AiRaised "HTTPSConnectionPool: Max retries exceeded";
     clock_utc := clock_utc calm_day;
     clock_days_remaining := clock_days_remaining calm_day;
     data_write := Written;
     history_write := Written |}.

(** A network on which the first request for each rate fails. *)
Definition flaky_network : env :=
  {| API_KEY := API_KEY calm_day;
     OPENROUTER_API_KEY := OPENROUTER_API_KEY calm_day;
     http_get := fun r n =>
       match r, n with
       | FxRate _ _, O => RequestFailed
       | _, _ => http_get calm_day r n
       end;
     chat_completion := chat_completion calm_day;
     clock_utc := clock_utc calm_day;
     clock_days_remaining := clock_days_remaining calm_day;
     data_write := Written;
     history_write := Written |}.

(** A provider that answers every rate request with its rate-limit note,
    next to a rate block. *)
Definition rate_limited : env :=
  {| API_KEY := API_KEY calm_day;
     OPENROUTER_API_KEY := OPENROUTER_API_KEY calm_day;
     http_get := fun r n =>
       match r with
       | FxRate _ _ =>
           Body (JObj [("Realtime Currency Exchange Rate",
                        JObj [("5. Exchange Rate", JStr "150.2500")]);
                       ("Note", JStr "Thank you for using Alpha Vantage!")])
       | _ => http_get calm_day r n
       end;
     chat_completion := chat_completion calm_day;
     clock_utc := clock_utc calm_day;
     clock_days_remaining := clock_days_remaining calm_day;
     data_write := Written;
     history_write := Written |}.

(** The calm day without the credential of the insight service. *)
Definition no_insight_credential : env :=
  {| API_KEY := API_KEY calm_day;
     OPENROUTER_API_KEY := None;
     http_get := http_get calm_day;
     chat_completion := chat_completion calm_day;
     clock_utc := clock_utc calm_day;
     clock_days_remaining := clock_days_remaining calm_day;
     data_write := Written;
     history_write := Written |}.

(** The calm day on which the current-snapshot file cannot be opened. *)
Definition data_file_locked : env :=
  {| API_KEY := API_KEY calm_day;
     OPENROUTER_API_KEY := OPENROUTER_API_KEY calm_day;
     http_get := http_get calm_day;
     chat_completion := chat_completion calm_day;
     clock_utc := clock_utc calm_day;
     clock_days_remaining := clock_days_remaining calm_day;
     data_write := OpenFails;
     history_write := Written |}.

(** A reply that holds the object asked for, with one of its two keys. *)
Definition half_answer : env :=
  {| API_KEY := API_KEY calm_day;
     OPENROUTER_API_KEY := OPENROUTER_API_KEY calm_day;
     http_get := http_get calm_day;
     chat_completion := fun _ => AiContent "Here it is: {stock_picks: gold}";
     clock_utc := clock_utc calm_day;
     clock_days_remaining := clock_days_remaining calm_day;
     data_write := Written;
     history_write := Written |}.

(** A reply whose object holds a lone surrogate, as the escape [\ud83d]
    decodes to: [json.dump] with [ensure_ascii=False] into the UTF-8 file
    raises a [UnicodeEncodeError], a [ValueError]; the history file, written
    with the escapes, is not concerned. *)
Definition surrogate_in_reply : env :=
  {| API_KEY := API_KEY calm_day;
     OPENROUTER_API_KEY := OPENROUTER_API_KEY calm_day;
     http_get := http_get calm_day;
     chat_completion := fun _ => AiContent "{stock_picks: surrogate}";
     clock_utc := clock_utc calm_day;
     clock_days_remaining := clock_days_remaining calm_day;
     data_write := DumpRaises ValueError;
     history_write := Written |}.

(** A decoder that accepts every span as the object with the one key
    ["stock_picks"]. *)
Definition decodes_stock_picks (s : string) : string + list (string * json) :=
  inr [("stock_picks", JStr "<ul><li>Gold</li></ul>")].

(** A decoder that fails at character 401 of the span. *)
Definition fails_at_char_401 (s : string) : string + list (string * json) :=
  inl "Expecting value: line 9 column 12 (char 401)".

(* ===================================================================== *)
(** * The built-ins on concrete values *)
(* ===================================================================== *)

(** [round(x, 1)] against the values CPython prints: the binary value of
    the argument decides, not its decimal spelling. *)
Example round1_runs :
  Py.round1 (Py.int_truediv 130 3) = 43.3%float /\
  Py.round1 0.15%float = 0.1%float /\
  Py.round1 0.25%float = 0.2%float /\
  Py.round1 0.45%float = 0.5%float /\
  Py.round1 3.75%float = 3.8%float /\
  Py.round1 25%float = 25%float.
Proof. repeat split; reflexivity. Qed.

Example format_fixed_runs :
  Py.format_fixed 4 150.25%float = "150.2500" /\
  Py.format_fixed 2 45%float = "45.00" /\
  Py.format_fixed 2 2.675%float = "2.67" /\
  Py.format_fixed 4 0.00005%float = "0.0001" /\
  Py.format_fixed 2 (-0.001)%float = "-0.00".
Proof. repeat split; reflexivity. Qed.

Example search_braces_runs :
  Py.search_braces "Sure: {a} and {b}. Bye" = Some "{a} and {b}" /\
  Py.search_braces "I cannot help with that." = None /\
  Py.search_braces "} before {" = None.
Proof. repeat split; reflexivity. Qed.

Example float_of_decimal_runs :
  Py.float_of_decimal "150.2500" = Some 150.25%float /\
  Py.float_of_decimal "0.0000" = Some 0%float /\
  Py.float_of_decimal "4.33" = Some 4.33%float /\
  Py.float_of_decimal "DATA ERROR" = None /\
  Py.float_of_decimal "N/A" = None.
Proof. repeat split; reflexivity. Qed.

(* ===================================================================== *)
(** * Float comparison *)
(* ===================================================================== *)

Lemma SFcompare_antisym (x y : spec_float) :
  SFcompare y x = option_map CompOpp (SFcompare x y).
Proof.
  destruct x as [sx|sx| |sx mx ex], y as [sy|sy| |sy my ey]; simpl;
    try reflexivity;
    try (destruct sx; reflexivity);
    try (destruct sy; reflexivity);
    try (destruct sx, sy; reflexivity).
  change (Pos.compare_cont Eq my mx) with (Pos.compare my mx).
  change (Pos.compare_cont Eq mx my) with (Pos.compare mx my).
  rewrite (Z.compare_antisym ex ey), (Pos.compare_antisym mx my).
  destruct sx, sy; simpl; try reflexivity;
    destruct (Z.compare ex ey); simpl; try reflexivity;
    destruct (Pos.compare mx my); reflexivity.
Qed.

(** [x < y] excludes [x >= y]. *)
Lemma lt_not_ge (x y : float) : Py.lt x y = true -> Py.ge x y = false.
Proof.
  unfold Py.lt, Py.ge. rewrite ltb_spec, leb_spec.
  unfold SFltb, SFleb. rewrite (SFcompare_antisym (Prim2SF x) (Prim2SF y)).
  destruct (SFcompare (Prim2SF x) (Prim2SF y)) as [[ | | ]|]; simpl;
    intro H; try discriminate H; reflexivity.
Qed.

(* ===================================================================== *)
(** * The signal classifier *)
(* ===================================================================== *)

(** C5: for every metric name and every volatility argument, present or
    absent, an absent value is classified DATA_ERROR. *)
Theorem absent_value_is_data_error (metric_name : string) (volatility : option float) :
  determine_signal metric_name None volatility = DATA_ERROR.
Proof. reflexivity. Qed.

(** Below the volatility threshold the gate of the USD/JPY ladder is shut. *)
Lemma volatility_gate_shut (v : float) :
  Py.lt v 2 = true -> volatility_gate (Some v) = false.
Proof.
  intro H. unfold volatility_gate, JPY_VOLATILITY_THRESHOLD.
  rewrite (lt_not_ge v 2 H). apply andb_false_r.
Qed.

(** C4: for USD/JPY, the value 159.9 with a supplied volatility below 2.0 is
    HIGH_STRESS, and every value of at least 160.0 is CRITICAL_SHOCK whatever
    the volatility argument. *)
Theorem jpy_critical_threshold :
  (forall v : float,
      Py.lt v 2 = true ->
      determine_signal USD_JPY (Some 159.9%float) (Some v) = HIGH_STRESS) /\
  (forall (value : float) (volatility : option float),
      Py.ge value 160 = true ->
      determine_signal USD_JPY (Some value) volatility = CRITICAL_SHOCK).
Proof.
  split.
  - intros v Hv. unfold determine_signal.
    rewrite (volatility_gate_shut v Hv). reflexivity.
  - intros value volatility Hge. unfold determine_signal.
    change (String.eqb USD_JPY USD_JPY) with true. cbv iota.
    unfold JPY_CRITICAL_THRESHOLD. rewrite Hge.
    destruct (volatility_gate volatility); reflexivity.
Qed.

Lemma jpy_critical_threshold_witness :
  determine_signal USD_JPY (Some 159.9%float) (Some 1.5%float) = HIGH_STRESS /\
  determine_signal USD_JPY (Some 160%float) (Some 3%float) = CRITICAL_SHOCK /\
  determine_signal USD_JPY (Some 160%float) None = CRITICAL_SHOCK.
Proof.
  split; [| split].
  - apply (proj1 jpy_critical_threshold). reflexivity.
  - apply (proj2 jpy_critical_threshold). reflexivity.
  - apply (proj2 jpy_critical_threshold). reflexivity.
Defined.

(** With a volatility of at least 2.0 the same value 159.9 is reported with
    the volatility label, and the absent volatility behaves as a low one. *)
Example jpy_gate_runs :
  determine_signal USD_JPY (Some 159.9%float) (Some 2%float) = HIGH_STRESS_HIGH_VOLATILITY /\
  determine_signal USD_JPY (Some 159.9%float) None = HIGH_STRESS /\
  determine_signal USD_JPY (Some 145%float) None = NORMAL /\
  determine_signal "Gold" (Some 9000%float) None = NORMAL.
Proof. repeat split; reflexivity. Qed.

(* ===================================================================== *)
(** * The composite risk scorer *)
(* ===================================================================== *)

(** The table of the source holds the weights of the specification. *)
Lemma weights_table (s : string) : dict_get weights s 0 = severity_weight s.
Proof.
  unfold weights, severity_weight, dict_get.
  rewrite !(String.eqb_sym _ s).
  repeat (destruct (String.eqb s _); [reflexivity|]).
  reflexivity.
Qed.

(** One turn of the loop, on the reference quantities. *)
Lemma score_step_spec (score0 total0 : Z) (m : metric) :
  score_step (score0, total0) m =
  (score0 + severity_weight (signal_of m),
   total0 + (if non_error m then 1 else 0)).
Proof. unfold score_step, non_error. rewrite weights_table. reflexivity. Qed.

(** The loop invariant: after the loop, the two accumulators hold the sum of
    the weights and the number of metrics that are not DATA_ERROR. *)
Lemma score_loop (ms : list metric) (score0 total0 : Z) :
  fold_left score_step ms (score0, total0) =
  (score0 + sum_of_weights ms, total0 + count_non_error ms).
Proof.
  revert score0 total0.
  induction ms as [|m ms IH]; intros score0 total0.
  - unfold sum_of_weights, count_non_error. simpl. f_equal; lia.
  - cbn [fold_left]. rewrite score_step_spec, IH.
    unfold sum_of_weights, count_non_error. cbn [map fold_right filter].
    destruct (non_error m).
    + cbn [List.length]. f_equal; lia.
    + f_equal; lia.
Qed.

Lemma count_non_error_zero (ms : list metric) :
  count_non_error ms = 0 <-> Forall (fun m => signal_of m = DATA_ERROR) ms.
Proof.
  unfold count_non_error. induction ms as [|m ms IH].
  - simpl. split; [constructor | reflexivity].
  - simpl filter. unfold non_error at 1.
    destruct (String.eqb_spec (signal_of m) DATA_ERROR) as [Heq|Hne]; simpl negb; cbv iota.
    + rewrite IH. split.
      * intro H. constructor; assumption.
      * intro H. inversion H; assumption.
    + split.
      * simpl List.length. lia.
      * intro H. inversion H; contradiction.
Qed.

(** The scorer, unfolded over the two reference quantities. *)
Lemma scorer_unfolded (ms : list metric) :
  calculate_composite_risk_score ms =
  if count_non_error ms =? 0 then
    {| score := PInt 0; level := "UNKNOWN"; color := "#6c757d" |}
  else
    let avg := mean_weight ms in
    if Py.ge avg 70 then
      {| score := PFloat (Py.round1 avg); level := "CRITICAL"; color := "#dc3545" |}
    else if Py.ge avg 45 then
      {| score := PFloat (Py.round1 avg); level := "ELEVATED"; color := "#ffc107" |}
    else if Py.ge avg 20 then
      {| score := PFloat (Py.round1 avg); level := "MODERATE"; color := "#fd7e14" |}
    else
      {| score := PFloat (Py.round1 avg); level := "LOW"; color := "#28a745" |}.
Proof.
  unfold calculate_composite_risk_score, mean_weight.
  rewrite score_loop. rewrite !Z.add_0_l. reflexivity.
Qed.

(** C1, as the source has it: the score is the unweighted mean of the
    severity weights over the metrics that are not DATA_ERROR, rounded to one
    decimal place; when every signal is DATA_ERROR the result is the score 0
    with the level UNKNOWN. *)
Theorem composite_score_rounded_mean (ms : list metric) :
  (Forall (fun m => signal_of m = DATA_ERROR) ms ->
     score (calculate_composite_risk_score ms) = PInt 0 /\
     level (calculate_composite_risk_score ms) = "UNKNOWN") /\
  (~ Forall (fun m => signal_of m = DATA_ERROR) ms ->
     score (calculate_composite_risk_score ms) = PFloat (Py.round1 (mean_weight ms))).
Proof.
  rewrite scorer_unfolded. split; intro H.
  - apply count_non_error_zero in H. rewrite H. split; reflexivity.
  - rewrite <- count_non_error_zero in H.
    apply Z.eqb_neq in H. rewrite H. cbv zeta.
    destruct (Py.ge (mean_weight ms) 70); [reflexivity|].
    destruct (Py.ge (mean_weight ms) 45); [reflexivity|].
    destruct (Py.ge (mean_weight ms) 20); reflexivity.
Qed.

Lemma composite_score_rounded_mean_witness :
  (score (calculate_composite_risk_score all_four_failed) = PInt 0 /\
   level (calculate_composite_risk_score all_four_failed) = "UNKNOWN") /\
  score (calculate_composite_risk_score yield_fetch_failed) = PFloat 43.3%float.
Proof.
  split.
  - apply (proj1 (composite_score_rounded_mean all_four_failed)).
    repeat constructor.
  - apply (proj2 (composite_score_rounded_mean yield_fetch_failed)).
    intro H. inversion H as [|m ms Hm Hms]. vm_compute in Hm. discriminate Hm.
Defined.

(** C1 as stated fails: with the signals CRITICAL_SHOCK, NORMAL,
    RISING_STRESS and DATA_ERROR the mean is 130 / 3, and the score returned
    is 43.3. *)
Lemma composite_score_is_not_the_mean :
  mean_weight yield_fetch_failed = Py.int_truediv 130 3 /\
  score (calculate_composite_risk_score yield_fetch_failed) = PFloat 43.3%float /\
  score (calculate_composite_risk_score yield_fetch_failed)
    <> PFloat (mean_weight yield_fetch_failed).
Proof.
  split; [reflexivity | split; [reflexivity |]].
  intro H.
  apply (f_equal (fun n => match n with
                           | PFloat x => PrimFloat.eqb x 43.3%float
                           | PInt _ => false
                           end)) in H.
  vm_compute in H. discriminate H.
Qed.

(** C2: when some signal is not DATA_ERROR, the level is CRITICAL for an
    average of at least 70, ELEVATED from 45, MODERATE from 20 and LOW below;
    the signals CRITICAL_SHOCK, NORMAL, NORMAL, NORMAL have the average 25.0
    and the level MODERATE. *)
Theorem composite_level_tiers :
  (forall ms : list metric,
      Exists (fun m => signal_of m <> DATA_ERROR) ms ->
      level (calculate_composite_risk_score ms) = tier_of (mean_weight ms)) /\
  mean_weight one_critical_of_four = 25%float /\
  level (calculate_composite_risk_score one_critical_of_four) = "MODERATE".
Proof.
  split; [| split; reflexivity].
  intros ms H. rewrite scorer_unfolded.
  assert (Hz : (count_non_error ms =? 0) = false).
  { apply Z.eqb_neq. rewrite count_non_error_zero. intro Hall.
    apply Exists_exists in H. destruct H as [m [Hin Hm]].
    rewrite Forall_forall in Hall. exact (Hm (Hall m Hin)). }
  rewrite Hz. cbv zeta. unfold tier_of.
  destruct (Py.ge (mean_weight ms) 70); [reflexivity|].
  destruct (Py.ge (mean_weight ms) 45); [reflexivity|].
  destruct (Py.ge (mean_weight ms) 20); reflexivity.
Qed.

Lemma composite_level_tiers_witness :
  level (calculate_composite_risk_score yield_fetch_failed) = "MODERATE".
Proof.
  apply (proj1 composite_level_tiers yield_fetch_failed).
  apply Exists_cons_hd. intro H. vm_compute in H. discriminate H.
Defined.

(* ===================================================================== *)
(** * The volatility calculator *)
(* ===================================================================== *)

Section VolatilityFacts.

Variable float_of_str : string -> option float.
Variable metric_name : string.

(** The inner loop finds the matching value of the entry, and keeps
    [yesterday] when there is none. *)
Lemma scan_metrics_spec (entry : snapshot) (yesterday : option float) :
  scan_metrics float_of_str metric_name
    (match metrics entry with Some ms => ms | None => [] end) yesterday =
  match matching_value float_of_str metric_name entry with
  | Some f => Some f
  | None => yesterday
  end.
Proof.
  unfold matching_value.
  induction (match metrics entry with Some ms => ms | None => [] end) as [|m ms IH].
  - reflexivity.
  - cbn [scan_metrics fold_right].
    destruct (String.eqb (name m) metric_name && negb (is_str (value m) DATA_ERROR)).
    + destruct (py_float float_of_str (value m)); [exact IH | reflexivity].
    + exact IH.
Qed.

(** A match found by the reference scan is the matching value of an entry. *)
Lemma most_recent_match_In (entries : list snapshot) (y : float) :
  most_recent_match float_of_str metric_name entries = Some y ->
  exists entry, In entry entries /\
                matching_value float_of_str metric_name entry = Some y.
Proof.
  induction entries as [|e es IH]; cbn [most_recent_match]; intro H.
  - discriminate H.
  - destruct (matching_value float_of_str metric_name e) as [f|] eqn:Hm.
    + exists e. split; [left; reflexivity | congruence].
    + destruct (IH H) as [entry [Hin Hy]]. exists entry. split; [right|]; assumption.
Qed.

(** On such entries the outer loop is the reference scan. *)
Lemma scan_entries_spec (entries : list snapshot) :
  zero_free float_of_str metric_name entries ->
  scan_entries float_of_str metric_name entries None =
  most_recent_match float_of_str metric_name entries.
Proof.
  induction entries as [|e es IH]; intro Hz.
  - reflexivity.
  - cbn [scan_entries most_recent_match]. rewrite scan_metrics_spec.
    destruct (matching_value float_of_str metric_name e) as [f|] eqn:Hm.
    + cbn [Py.truthy_opt]. rewrite (Hz e f (or_introl eq_refl) Hm). reflexivity.
    + cbn [Py.truthy_opt]. apply IH.
      intros entry y Hin. apply Hz. right. exact Hin.
Qed.

(** The calculator returns the absolute difference with the most recent
    stored value that can be read, provided no such value reads as zero. *)
Lemma calculate_volatility_spec (current : option float) (history : list snapshot) :
  zero_free float_of_str metric_name history ->
  calculate_volatility float_of_str current history metric_name =
  volatility_reference float_of_str current history metric_name.
Proof.
  intro Hz. unfold calculate_volatility, volatility_reference.
  assert (Hrev : zero_free float_of_str metric_name (rev history)).
  { intros entry y Hin. apply Hz. apply in_rev. exact Hin. }
  rewrite (scan_entries_spec (rev history) Hrev).
  destruct history as [|e es].
  - destruct current; reflexivity.
  - destruct current as [c|]; [|reflexivity].
    destruct (most_recent_match float_of_str metric_name (rev (e :: es))) as [y|] eqn:Hy;
      [|reflexivity].
    destruct (most_recent_match_In _ _ Hy) as [entry [Hin Hm]].
    rewrite (Hrev entry y Hin Hm). reflexivity.
Qed.

(** Without a current value, or on an empty history, the result is absent. *)
Lemma calculate_volatility_absent (current : option float) (history : list snapshot) :
  current = None \/ history = [] ->
  calculate_volatility float_of_str current history metric_name = None.
Proof.
  intros [H|H]; subst; unfold calculate_volatility.
  - destruct history; reflexivity.
  - reflexivity.
Qed.

End VolatilityFacts.

(** The example of the specification: the most recent value, 152.0, is the
    one compared with 154.0. *)
Example volatility_most_recent :
  calculate_volatility Py.float_of_decimal (Some 154%float)
    [jpy_entry (JNum 150); jpy_entry (JNum 152)] USD_JPY = Some 2%float /\
  calculate_volatility Py.float_of_decimal (Some 154%float)
    [jpy_entry (JStr "150.0000"); jpy_entry (JStr "152.0000")] USD_JPY = Some 2%float /\
  calculate_volatility Py.float_of_decimal (Some 154%float)
    [jpy_entry (JStr "150.0000"); jpy_entry (JStr "DATA ERROR")] USD_JPY = Some 4%float.
Proof. repeat split; reflexivity. Qed.

(** The tracker itself stores the text "0.0000" for a small positive rate. *)
Example small_rate_is_stored_as_zero :
  value_text 4 EmptyString (Some 0.00001%float) = JStr "0.0000".
Proof. reflexivity. Qed.

(** C3 fails on a stored value that reads as zero: [if yesterday:] takes the
    match 0.0 for no match.  With the single entry "0.0000" the calculator
    returns nothing where the most recent match gives |154.0 - 0.0|; with an
    older entry "152.0000" behind it, the scan goes on and returns 2.0. *)
Theorem calculate_volatility_skips_zero :
  calculate_volatility Py.float_of_decimal (Some 154%float)
    [jpy_entry (JStr "0.0000")] USD_JPY = None /\
  volatility_reference Py.float_of_decimal (Some 154%float)
    [jpy_entry (JStr "0.0000")] USD_JPY = Some 154%float /\
  calculate_volatility Py.float_of_decimal (Some 154%float)
    [jpy_entry (JStr "152.0000"); jpy_entry (JStr "0.0000")] USD_JPY = Some 2%float /\
  volatility_reference Py.float_of_decimal (Some 154%float)
    [jpy_entry (JStr "152.0000"); jpy_entry (JStr "0.0000")] USD_JPY = Some 154%float.
Proof. repeat split; reflexivity. Qed.

(* ===================================================================== *)
(** * The history window *)
(* ===================================================================== *)

Local Open Scope list_scope.

Lemma last_entries_length {A : Type} (n : nat) (l : list A) :
  List.length (last_entries n l) = Nat.min n (List.length l).
Proof. unfold last_entries. rewrite length_skipn. lia. Qed.

Lemma last_entries_suffix {A : Type} (n : nat) (l : list A) :
  firstn (List.length l - n) l ++ last_entries n l = l.
Proof. unfold last_entries. apply firstn_skipn. Qed.

(** Trimming after an append keeps the appended element last. *)
Lemma last_entries_app {A : Type} (n : nat) (l : list A) (x : A) :
  last_entries (S n) (l ++ [x]) = last_entries n l ++ [x].
Proof.
  unfold last_entries. rewrite length_app. cbn [List.length].
  replace (List.length l + 1 - S n)%nat with (List.length l - n)%nat by lia.
  rewrite skipn_app.
  replace (List.length l - n - List.length l)%nat with O by lia.
  reflexivity.
Qed.

(** C7: the history saved at the end of a cycle holds at most 30 entries,
    the most recent ones in their order; when 31 entries were present before
    the append it holds exactly 30, the two oldest are gone (so the oldest
    original entry occurs nowhere in it when the entries are distinct) and the
    new snapshot is its last element. *)
Theorem saved_history_window (E : env) (history : list snapshot)
    (final_data : snapshot) (w : world) :
  history_write E = Written ->
  let saved := last_entries 30 (history ++ [final_data]) in
  history_file (snd (save_historical_data E (history ++ [final_data]) w)) = Holds saved /\
  (List.length saved <= 30)%nat /\
  (exists dropped, history ++ [final_data] = dropped ++ saved) /\
  (exists kept, saved = kept ++ [final_data]) /\
  (List.length history = 31%nat ->
     List.length saved = 30%nat /\
     saved = skipn 2 history ++ [final_data] /\
     (NoDup (history ++ [final_data]) ->
      forall oldest, nth_error history 0 = Some oldest -> ~ In oldest saved)).
Proof.
  intros Hw saved. unfold save_historical_data. rewrite Hw. cbn [snd history_file].
  split; [reflexivity|].
  split; [unfold saved; rewrite last_entries_length; lia|].
  split; [eexists; symmetry; apply last_entries_suffix|].
  split; [exists (last_entries 29 history); apply last_entries_app|].
  intro Hlen.
  assert (Hsaved : saved = skipn 2 history ++ [final_data]).
  { unfold saved. rewrite last_entries_app. unfold last_entries.
    rewrite Hlen. reflexivity. }
  split; [unfold saved; rewrite last_entries_length, length_app; cbn [List.length]; lia|].
  split; [exact Hsaved|].
  intros Hnodup oldest Hold Hin. rewrite Hsaved in Hin.
  destruct history as [|a [|b rest]]; try discriminate Hlen.
  cbn in Hold. injection Hold as <-.
  cbn [skipn] in Hin. cbn [app] in Hnodup.
  inversion Hnodup as [|x xs Hnotin _]; subst.
  apply Hnotin. right. exact Hin.
Qed.

(** Numbered entries differ in their day count. *)
Lemma numbered_entries_distinct (a n : nat) : NoDup (map numbered_entry (seq a n)).
Proof.
  revert a. induction n as [|n IH]; intro a; cbn [seq map].
  - constructor.
  - constructor; [|apply IH].
    intro Hin. apply in_map_iff in Hin. destruct Hin as [b [Heq Hb]].
    apply (f_equal days_remaining) in Heq. cbn [days_remaining numbered_entry] in Heq.
    apply in_seq in Hb. lia.
Qed.

Lemma saved_history_window_witness :
  let saved := last_entries 30 (thirty_one_entries ++ [numbered_entry 31]) in
  history_file (snd (save_historical_data calm_day
                       (thirty_one_entries ++ [numbered_entry 31]) fresh_disk)) =
    Holds saved /\
  List.length saved = 30%nat /\
  saved = map numbered_entry (seq 2 30) /\
  ~ In (numbered_entry 0) saved.
Proof.
  intro saved.
  destruct (saved_history_window calm_day thirty_one_entries
              (numbered_entry 31) fresh_disk eq_refl) as [Hfile [_ [_ [_ H31]]]].
  destruct (H31 eq_refl) as [Hlen [Heq Habsent]].
  split; [exact Hfile|]. split; [exact Hlen|]. split; [exact Heq|].
  apply Habsent; [exact (numbered_entries_distinct 0 32) | reflexivity].
Defined.

(* ===================================================================== *)
(** * The metric fetchers *)
(* ===================================================================== *)

(** The yield fetcher returns on every answer of the network. *)
Lemma fetch_treasury_yield_10y_returns (float_of_str : string -> option float)
    (E : env) (w : world) :
  exists rate w', fetch_treasury_yield_10y float_of_str E w = (Ret rate, w').
Proof.
  unfold fetch_treasury_yield_10y, bind, send, ret.
  destruct (treasury_yield_of float_of_str _) as [e|rate]; eauto.
Qed.

(** The rate fetcher absorbs the failures of the transport: when every
    attempt fails in the request or in decoding the body, it returns the
    absent value after three requests. *)
Lemma fetch_fx_rate_transport_failure (float_of_str : string -> option float)
    (E : env) (symbol : string) (w : world) :
  (forall n, http_get E (fx_request symbol) n = RequestFailed \/
             http_get E (fx_request symbol) n = BodyNotJson) ->
  exists w', fetch_fx_rate float_of_str E symbol w = (Ret None, w') /\
             requests_sent w' =
               requests_sent w ++ [fx_request symbol; fx_request symbol; fx_request symbol].
Proof.
  intro Hnet. unfold fetch_fx_rate, fx_attempts, bind, send, ret.
  repeat match goal with
         | |- context [http_get E (fx_request symbol) ?n] =>
             destruct (Hnet n) as [-> | ->]; cbn [fx_rate_of requests_sent]
         end;
    (eexists; split; [reflexivity | cbn [requests_sent]; rewrite <- !app_assoc; reflexivity]).
Qed.

(** A rate-limit note, an error message of the provider or a body without
    the rate block give the absent value. *)
Example fetch_fx_rate_provider_refusals :
  fx_rate_of Py.float_of_decimal (Body (JObj [("Note", JStr "rate limit")])) = inr None /\
  fx_rate_of Py.float_of_decimal (Body (JObj [("Error Message", JStr "bad call")])) = inr None /\
  fx_rate_of Py.float_of_decimal (Body (JObj [])) = inr None /\
  fx_rate_of Py.float_of_decimal (fx_body (JStr "150.2500")) = inr (Some 150.25%float).
Proof. repeat split; reflexivity. Qed.

(** C6 fails for the rate fetcher: its [except] clause names
    [RequestException] only, so the [ValueError] of [float] on a rate field
    that is no number leaves [fetch_fx_rate] and the whole cycle, while the
    yield fetcher, under [except Exception], turns the same field into the
    absent value. *)
Theorem fetch_fx_rate_raises_on_malformed_rate :
  fst (fetch_fx_rate Py.float_of_decimal malformed_rate "USDJPY" fresh_disk)
    = Raise ValueError /\
  update_tracing_data Py.float_of_decimal no_json malformed_rate fresh_disk
    = (Raise ValueError,
       {| data_file := Missing; history_file := Missing;
          requests_sent := [FxRate "USD" "JPY"] |}) /\
  treasury_yield_of Py.float_of_decimal (yield_body (JStr "N/A")) = inl ValueError /\
  fst (fetch_treasury_yield_10y Py.float_of_decimal malformed_rate fresh_disk)
    = Ret None.
Proof. repeat split; reflexivity. Qed.

(* ===================================================================== *)
(** * The cycle *)
(* ===================================================================== *)

(** C8: without the financial-data credential the cycle returns at once: no
    request is sent and neither the current-snapshot file nor the history is
    touched. *)
Theorem missing_credential_aborts (float_of_str : string -> option float)
    (json_loads : string -> string + list (string * json)) (E : env) (w : world) :
  key_present (API_KEY E) = false ->
  update_tracing_data float_of_str json_loads E w = (Ret tt, w).
Proof.
  intro H. unfold update_tracing_data. rewrite H. reflexivity.
Qed.

Lemma missing_credential_aborts_witness :
  update_tracing_data Py.float_of_decimal no_json no_credential
    (disk_with thirty_one_entries) = (Ret tt, disk_with thirty_one_entries).
Proof.
  apply (missing_credential_aborts Py.float_of_decimal no_json no_credential).
  reflexivity.
Defined.

(** A cycle that runs to its end saves the window of the history it loaded,
    extended by its own snapshot. *)
Lemma cycle_saves_window (float_of_str : string -> option float)
    (json_loads : string -> string + list (string * json)) (E : env) (w w' : world) :
  key_present (API_KEY E) = true ->
  history_write E = Written ->
  update_tracing_data float_of_str json_loads E w = (Ret tt, w') ->
  exists final_data,
    history_file w' = Holds (last_entries 30 (loaded_history w ++ [final_data])).
Proof.
  intros Hkey Hwrite Hrun.
  unfold update_tracing_data in Hrun. rewrite Hkey in Hrun. cbn [negb] in Hrun.
  unfold bind at 1 in Hrun. unfold load_historical_data at 1 in Hrun.
  fold (loaded_history w) in Hrun.
  unfold bind at 1 in Hrun.
  destruct (fetch_fx_rate float_of_str E "USDJPY" w) as [[usd_jpy|e] w1];
    [|discriminate Hrun].
  unfold bind at 1 in Hrun.
  destruct (fetch_fx_rate float_of_str E "USDCNH" w1) as [[usd_cnh|e] w2];
    [|discriminate Hrun].
  unfold bind at 1 in Hrun.
  destruct (fetch_treasury_yield_10y float_of_str E w2) as [[t|e] w3];
    [|discriminate Hrun].
  unfold bind at 1 in Hrun.
  destruct (generate_ai_insights json_loads E _ w3) as [[ai|e] w4];
    [|discriminate Hrun].
  unfold bind, write_data_file, save_historical_data in Hrun.
  rewrite Hwrite in Hrun.
  destruct (data_write E); try discriminate Hrun;
    injection Hrun as <-; eexists; reflexivity.
Qed.

(** Whatever goes wrong in the [try], both fields carry the one placeholder
    that the handler picks from the message. *)
Lemma failure_gives_one_placeholder (json_loads : string -> string + list (string * json))
    (E : env) (ms : list metric) (error_str : string) (w : world) :
  key_present (OPENROUTER_API_KEY E) = true ->
  insights_of json_loads (chat_completion E ms) = inl error_str ->
  fst (generate_ai_insights json_loads E ms w) =
    Ret {| stock_picks := JStr (ui_error error_str);
           tasi_opportunities := JStr (ui_error error_str) |}.
Proof.
  intros Hkey Herr. unfold generate_ai_insights. rewrite Hkey. cbn [negb].
  unfold bind, post_chat. rewrite Herr. reflexivity.
Qed.

(** The handler on the messages it is written for, and on another message
    of the JSON decoder (that of an object whose key is not quoted), which
    falls to the generic placeholder. *)
Example ui_error_runs :
  ui_error "Could not extract JSON from AI response"
    = "AI Error: Response Parsing Failed" /\
  ui_error "Expecting value: line 1 column 1 (char 0)"
    = "AI Error: Response Parsing Failed" /\
  ui_error "401 Client Error: Unauthorized for url: https://openrouter.ai/api/v1/chat/completions"
    = "AI Configuration Error: Invalid API Key (401)" /\
  ui_error "Expecting property name enclosed in double quotes: line 1 column 2 (char 1)"
    = "AI Analysis Failed: Expecting property name enclos...".
Proof. repeat split; reflexivity. Qed.

(** The handler on a message that reads as a parse failure. *)
Lemma ui_error_parse_failure (msg : string) :
  parse_failure_message msg = true -> ui_error msg = "AI Error: Response Parsing Failed".
Proof.
  unfold parse_failure_message, ui_error. intro H.
  apply andb_prop in H. destruct H as [H Hwords].
  apply andb_prop in H. destruct H as [H401 H429].
  apply negb_true_iff in H401. apply negb_true_iff in H429.
  rewrite H401, H429, Hwords. reflexivity.
Qed.

(** An unparseable reply gives the parse-failure placeholders. *)
Lemma unparseable_parsing_failed (json_loads : string -> string + list (string * json))
    (E : env) (ms : list metric) (content : string) (w : world) :
  key_present (OPENROUTER_API_KEY E) = true ->
  chat_completion E ms = AiContent content ->
  unparseable json_loads content ->
  fst (generate_ai_insights json_loads E ms w) = Ret parsing_failed.
Proof.
  intros Hkey Hreply Hun.
  assert (Herr : exists msg,
             insights_of json_loads (chat_completion E ms) = inl msg /\
             ui_error msg = "AI Error: Response Parsing Failed").
  { rewrite Hreply. unfold insights_of.
    destruct Hun as [Hnone | [span [msg [Hspan [Hloads Hmsg]]]]].
    - rewrite Hnone. eexists. split; reflexivity.
    - rewrite Hspan, Hloads. exists msg. split; [reflexivity|].
      apply ui_error_parse_failure. exact Hmsg. }
  destruct Herr as [msg [Herr Hui]].
  rewrite (failure_gives_one_placeholder json_loads E ms msg w Hkey Herr).
  rewrite Hui. reflexivity.
Qed.

(** The insight generator returns on every reply. *)
Lemma generate_ai_insights_returns (json_loads : string -> string + list (string * json))
    (E : env) (ms : list metric) (w : world) :
  exists ai w', generate_ai_insights json_loads E ms w = (Ret ai, w').
Proof.
  unfold generate_ai_insights, bind, post_chat, ret.
  destruct (negb (key_present (OPENROUTER_API_KEY E))); [eauto|].
  destruct (insights_of json_loads _); eauto.
Qed.

(** C9 fails on a reply that holds braces but no JSON object.  The handler
    files parse failures under "AI Error: Response Parsing Failed" by looking
    for "Expecting value" or "JSON" in the message: a reply without braces
    and a decoder message "Expecting value ..." get that placeholder, but
    for the span "{oops}" the decoder's message is another one, and both
    fields get the generic placeholder. *)
Theorem unparseable_reply_generic_placeholder :
  Py.search_braces "{oops}" = Some "{oops}" /\
  insights_written
    (snd (update_tracing_data Py.float_of_decimal rejects_unquoted_key
            unquoted_key_reply fresh_disk)) =
    Some {| stock_picks := JStr "AI Analysis Failed: Expecting property name enclos...";
            tasi_opportunities := JStr "AI Analysis Failed: Expecting property name enclos..." |} /\
  insights_written
    (snd (update_tracing_data Py.float_of_decimal rejects_unquoted_key
            unquoted_key_reply fresh_disk)) <> Some parsing_failed /\
  insights_written
    (snd (update_tracing_data Py.float_of_decimal rejects_unquoted_key
            calm_day fresh_disk)) = Some parsing_failed /\
  insights_written
    (snd (update_tracing_data Py.float_of_decimal no_json
            unquoted_key_reply fresh_disk)) = Some parsing_failed.
Proof.
  split; [reflexivity | split; [reflexivity | split; [| split; reflexivity]]].
  intro H. vm_compute in H. discriminate H.
Qed.

(** When no object comes out of the reply of the model because it holds no
    pair of braces, or because the decoder rejects the span with a message
    that the handler files under parse failures, both insight fields are the
    parse-failure placeholder, and a cycle whose fetches have returned and
    whose write of the current snapshot does not raise runs to its end: the
    snapshot holding the placeholders is written as the current snapshot and
    appended to the history. *)
Theorem unparseable_reply_completes (float_of_str : string -> option float)
    (json_loads : string -> string + list (string * json)) (E : env)
    (w w1 w2 : world) (usd_jpy usd_cnh : option float) :
  key_present (API_KEY E) = true ->
  key_present (OPENROUTER_API_KEY E) = true ->
  (forall ms, exists content,
      chat_completion E ms = AiContent content /\ unparseable json_loads content) ->
  fetch_fx_rate float_of_str E "USDJPY" w = (Ret usd_jpy, w1) ->
  fetch_fx_rate float_of_str E "USDCNH" w1 = (Ret usd_cnh, w2) ->
  (forall e, data_write E <> DumpRaises e) ->
  exists final_data w',
    update_tracing_data float_of_str json_loads E w = (Ret tt, w') /\
    ai_insights final_data = parsing_failed /\
    (data_write E = Written -> data_file w' = Holds final_data) /\
    (history_write E = Written ->
     history_file w' = Holds (last_entries 30 (loaded_history w ++ [final_data]))).
Proof.
  intros Hkey Hai Hreply Hjpy Hcnh Hdump.
  unfold update_tracing_data. rewrite Hkey. cbn [negb].
  unfold bind at 1. unfold load_historical_data at 1.
  fold (loaded_history w).
  unfold bind at 1. rewrite Hjpy.
  unfold bind at 1. rewrite Hcnh.
  unfold bind at 1.
  destruct (fetch_treasury_yield_10y_returns float_of_str E w2) as [t [w3 ->]].
  set (ms := build_metrics float_of_str (loaded_history w) usd_jpy usd_cnh t).
  destruct (Hreply ms) as [content [Hc Hs]].
  pose proof (unparseable_parsing_failed json_loads E ms content w3 Hai Hc Hs) as Hgen.
  destruct (generate_ai_insights_returns json_loads E ms w3) as [ai [w4 Hrun]].
  rewrite Hrun in Hgen. cbn [fst] in Hgen. injection Hgen as ->.
  unfold bind at 1. rewrite Hrun.
  exists (build_final_data E ms parsing_failed).
  unfold bind, write_data_file, save_historical_data.
  destruct (data_write E) as [ | | |e] eqn:Hdata;
    [| | |exfalso; exact (Hdump e eq_refl)];
    (eexists; split; [reflexivity|]; split; [reflexivity|];
     cbn [data_file history_file];
     split; [intro H; try discriminate H; reflexivity | intros ->; reflexivity]).
Qed.

Lemma unparseable_reply_completes_witness :
  exists final_data w',
    update_tracing_data Py.float_of_decimal no_json calm_day fresh_disk = (Ret tt, w') /\
    ai_insights final_data = parsing_failed /\
    (data_write calm_day = Written -> data_file w' = Holds final_data) /\
    (history_write calm_day = Written ->
     history_file w' = Holds (last_entries 30 (loaded_history fresh_disk ++ [final_data]))).
Proof.
  eapply (unparseable_reply_completes Py.float_of_decimal no_json calm_day fresh_disk).
  - reflexivity.
  - reflexivity.
  - intro ms. eexists. split; [reflexivity | left; reflexivity].
  - reflexivity.
  - reflexivity.
  - intros e H. discriminate H.
Defined.

(** C10: a fetched value of exactly 0.0 is falsy, so the metric built from it
    shows the sentinel "DATA ERROR" as its value, while its signal is the
    classification of the number 0.0, NORMAL, which counts in the divisor of
    the composite score. *)
Theorem zero_value_sentinel_yet_counted (float_of_str : string -> option float)
    (history : list snapshot) (usd_jpy usd_cnh treasury_10y : option float) :
  let ms := build_metrics float_of_str history usd_jpy usd_cnh treasury_10y in
  (usd_jpy = Some 0%float ->
     exists m, nth_error ms 0 = Some m /\ name m = USD_JPY /\ sentinel_yet_counted m) /\
  (usd_cnh = Some 0%float ->
     exists m, nth_error ms 1 = Some m /\ name m = USD_CNH /\ sentinel_yet_counted m) /\
  (treasury_10y = Some 0%float ->
     exists m, nth_error ms 3 = Some m /\ name m = TREASURY_10Y /\ sentinel_yet_counted m).
Proof.
  cbv zeta. unfold sentinel_yet_counted.
  split; [|split]; intros ->; eexists;
    (split; [reflexivity|]); (split; [reflexivity|]);
    (split; [reflexivity|]); (split; [reflexivity|]);
    intros score0 total0; rewrite score_step_spec;
    change ((score0 + 0, total0 + 1) = (score0, total0 + 1));
    rewrite Z.add_0_r; reflexivity.
Qed.

Lemma zero_value_sentinel_yet_counted_witness :
  let ms := build_metrics Py.float_of_decimal []
              (Some 0%float) (Some 0%float) (Some 0%float) in
  (exists m, nth_error ms 0 = Some m /\ name m = USD_JPY /\ sentinel_yet_counted m) /\
  (exists m, nth_error ms 1 = Some m /\ name m = USD_CNH /\ sentinel_yet_counted m) /\
  (exists m, nth_error ms 3 = Some m /\ name m = TREASURY_10Y /\ sentinel_yet_counted m).
Proof.
  intro ms.
  destruct (zero_value_sentinel_yet_counted Py.float_of_decimal []
              (Some 0%float) (Some 0%float) (Some 0%float)) as [Hjpy [Hcnh Hyield]].
  split; [exact (Hjpy eq_refl) | split; [exact (Hcnh eq_refl) | exact (Hyield eq_refl)]].
Defined.

(** The divisor at work: with the two other fetches failed, a USD/JPY value
    of 0.0 halves the score that the same cycle has when that fetch fails
    too, and changes the level. *)
Example zero_value_changes_the_score :
  calculate_composite_risk_score
    (build_metrics Py.float_of_decimal [] (Some 0%float) None None) =
    {| score := PFloat 15; level := "LOW"; color := "#28a745" |} /\
  calculate_composite_risk_score
    (build_metrics Py.float_of_decimal [] None None None) =
    {| score := PFloat 30; level := "MODERATE"; color := "#fd7e14" |}.
Proof. split; reflexivity. Qed.

(* ===================================================================== *)
(** * More on the signal classifier *)
(* ===================================================================== *)

Ltac compare_specs :=
  repeat match goal with
         | H : context [Z.compare ?a ?b] |- _ => destruct (Z.compare_spec a b)
         | |- context [Z.compare ?a ?b] => destruct (Z.compare_spec a b)
         | H : context [Pos.compare ?a ?b] |- _ => destruct (Pos.compare_spec a b)
         | |- context [Pos.compare ?a ?b] => destruct (Pos.compare_spec a b)
         end.

Ltac three_floats x y z :=
  destruct x as [[|]|[|]| |[|] ? ?], y as [[|]|[|]| |[|] ? ?], z as [[|]|[|]| |[|] ? ?];
  try discriminate; try reflexivity;
  change (Pos.compare_cont Eq) with Pos.compare;
  compare_specs; simpl; intros; try discriminate; try reflexivity; subst; try lia.

Lemma SFleb_trans (x y z : spec_float) :
  SFleb x y = true -> SFleb y z = true -> SFleb x z = true.
Proof. unfold SFleb, SFcompare. three_floats x y z. Qed.

Lemma SFltb_leb_trans (x y z : spec_float) :
  SFltb x y = true -> SFleb y z = true -> SFltb x z = true.
Proof. unfold SFleb, SFltb, SFcompare. three_floats x y z. Qed.

(** A threshold reached by a value is reached by every larger value. *)
Lemma ge_upward (t a b : float) :
  Py.ge a t = true -> PrimFloat.leb a b = true -> Py.ge b t = true.
Proof.
  unfold Py.ge. rewrite !leb_spec. apply SFleb_trans.
Qed.

Lemma gt_upward (t a b : float) :
  Py.gt a t = true -> PrimFloat.leb a b = true -> Py.gt b t = true.
Proof.
  unfold Py.gt. rewrite !ltb_spec, leb_spec. apply SFltb_leb_trans.
Qed.

(** Splits on every test of the ladders. *)
Ltac split_tests :=
  repeat match goal with
         | |- context [if ?b then _ else _] => destruct b eqn:?
         | |- context [match (if ?b then _ else _) with _ => _ end] => destruct b eqn:?
         end.

(** The classifier returns one of the six labels. *)
Theorem determine_signal_label (metric_name : string) (value volatility : option float) :
  In (determine_signal metric_name value volatility) signal_labels.
Proof.
  unfold determine_signal, signal_labels. destruct value as [v|].
  - split_tests; cbn [In]; tauto.
  - cbn [In]. tauto.
Qed.

(** DATA_ERROR is returned for the absent value and for nothing else. *)
Theorem data_error_only_for_absent (metric_name : string) (value volatility : option float) :
  determine_signal metric_name value volatility = DATA_ERROR <-> value = None.
Proof.
  split.
  - destruct value as [v|]; [|reflexivity].
    unfold determine_signal. split_tests; intro H; vm_compute in H; discriminate H.
  - intros ->. reflexivity.
Qed.

(** A present value under a name that is none of the four metrics is NORMAL,
    whatever the value. *)
Theorem unknown_metric_is_normal (metric_name : string) (v : float)
    (volatility : option float) :
  ~ In metric_name metric_names ->
  determine_signal metric_name (Some v) volatility = NORMAL.
Proof.
  unfold metric_names. cbn [In]. intro H.
  unfold determine_signal.
  destruct (String.eqb_spec metric_name USD_JPY); [intuition congruence|].
  destruct (String.eqb_spec metric_name USD_CNH); [intuition congruence|].
  destruct (String.eqb_spec metric_name MOVE_INDEX); [intuition congruence|].
  destruct (String.eqb_spec metric_name TREASURY_10Y); [intuition congruence|].
  reflexivity.
Qed.

Lemma unknown_metric_is_normal_witness :
  determine_signal "VIX" (Some 95%float) (Some 9%float) = NORMAL.
Proof.
  apply unknown_metric_is_normal.
  unfold metric_names. cbn [In].
  intros [H|[H|[H|[H|H]]]]; try discriminate H; exact H.
Defined.

(** The volatility argument matters for USD/JPY only. *)
Theorem volatility_only_for_jpy (metric_name : string) (value volatility : option float) :
  metric_name <> USD_JPY ->
  determine_signal metric_name value volatility = determine_signal metric_name value None.
Proof.
  intro H. apply String.eqb_neq in H.
  unfold determine_signal. rewrite H. reflexivity.
Qed.

Lemma volatility_only_for_jpy_witness :
  determine_signal USD_CNH (Some 7.4%float) (Some 5%float) =
  determine_signal USD_CNH (Some 7.4%float) None.
Proof.
  apply volatility_only_for_jpy. intro H. discriminate H.
Defined.

(** The gate of the USD/JPY ladder is open exactly for a volatility that is
    present, not zero and at least 2.0. *)
Lemma volatility_gate_open (volatility : option float) :
  volatility_gate volatility = true <->
  exists vol, volatility = Some vol /\
              PrimFloat.eqb vol 0 = false /\
              PrimFloat.leb 2 vol = true.
Proof.
  unfold volatility_gate, Py.truthy, Py.ge, JPY_VOLATILITY_THRESHOLD.
  destruct volatility as [vol|].
  - split.
    + intro H. apply andb_prop in H. destruct H as [Hnz Hge].
      apply negb_true_iff in Hnz. exists vol. auto.
    + intros [vol' [Heq [Hnz Hge]]].
      assert (Hvol : PrimFloat.eqb vol 0 = false /\ PrimFloat.leb 2 vol = true).
      { destruct (PrimFloat.eqb vol 0) eqn:H0, (PrimFloat.leb 2 vol) eqn:H2;
          try (split; reflexivity);
          exfalso;
          apply (f_equal (fun o => match o with
                                   | Some x =>
                                       negb (PrimFloat.eqb x 0) && PrimFloat.leb 2 x
                                   | None => false
                                   end)) in Heq;
          rewrite H0, H2, Hnz, Hge in Heq; discriminate Heq. }
      destruct Hvol as [-> ->]. reflexivity.
  - split; [intro H; discriminate H | intros [vol [H _]]; discriminate H].
Qed.

(** The label with the volatility is returned exactly for USD/JPY, with a
    volatility that is present, not zero and at least 2.0, and a value that
    is at least 155.0 and not at least 160.0. *)
Theorem high_volatility_label (metric_name : string) (value volatility : option float) :
  determine_signal metric_name value volatility = "HIGH STRESS + HIGH VOLATILITY" <->
  metric_name = "USD/JPY Exchange Rate" /\
  (exists vol, volatility = Some vol /\
               PrimFloat.eqb vol 0 = false /\
               PrimFloat.leb 2 vol = true) /\
  (exists v, value = Some v /\
             PrimFloat.leb 155 v = true /\
             PrimFloat.leb 160 v = false).
Proof.
  rewrite <- volatility_gate_open.
  change "HIGH STRESS + HIGH VOLATILITY" with HIGH_STRESS_HIGH_VOLATILITY.
  change "USD/JPY Exchange Rate" with USD_JPY.
  change (fun v : float => PrimFloat.leb 155 v) with (fun v => Py.ge v JPY_STRESS_THRESHOLD).
  split.
  - unfold determine_signal. destruct value as [v|]; [|intro H; discriminate H].
    destruct (String.eqb_spec metric_name USD_JPY) as [->|Hne].
    + destruct (volatility_gate volatility);
        destruct (Py.ge v JPY_CRITICAL_THRESHOLD) eqn:Hc;
        destruct (Py.ge v JPY_STRESS_THRESHOLD) eqn:Hs;
        cbv iota; try (intro H; discriminate H);
        try (destruct (Py.gt v 145); intro H; discriminate H).
      intros _. split; [reflexivity|]. split; [reflexivity|].
      exists v. split; [reflexivity|]. split; [exact Hs | exact Hc].
    + split_tests; intro H; vm_compute in H; discriminate H.
  - intros [-> [Hgate [v [-> [Hs Hc]]]]].
    unfold determine_signal. change (String.eqb USD_JPY USD_JPY) with true.
    cbv iota. rewrite Hgate.
    change (PrimFloat.leb 155 v) with (Py.ge v JPY_STRESS_THRESHOLD) in Hs.
    change (PrimFloat.leb 160 v) with (Py.ge v JPY_CRITICAL_THRESHOLD) in Hc.
    rewrite Hc, Hs. reflexivity.
Qed.

Lemma high_volatility_label_witness :
  determine_signal USD_JPY (Some 157.5%float) (Some 2%float) =
    "HIGH STRESS + HIGH VOLATILITY".
Proof.
  apply (proj2 (high_volatility_label USD_JPY (Some 157.5%float) (Some 2%float))).
  split; [reflexivity|].
  split; [exists 2%float | exists 157.5%float]; repeat split; reflexivity.
Defined.

(** The severity of the label does not decrease when the value grows, for
    every metric name and every volatility. *)
Theorem severity_grows_with_value (metric_name : string) (v1 v2 : float)
    (volatility : option float) :
  PrimFloat.leb v1 v2 = true ->
  severity_weight (determine_signal metric_name (Some v1) volatility) <=
  severity_weight (determine_signal metric_name (Some v2) volatility).
Proof.
  intro Hle. unfold determine_signal.
  unfold JPY_CRITICAL_THRESHOLD, JPY_STRESS_THRESHOLD, CNH_CRITICAL_THRESHOLD,
    CNH_STRESS_THRESHOLD, MOVE_PROXY_CRITICAL, MOVE_PROXY_HIGH.
  repeat match goal with
         | |- context [Py.ge v1 ?t] =>
             let H := fresh "H" in
             destruct (Py.ge v1 t) eqn:H; [rewrite (ge_upward t v1 v2 H Hle)|]
         | |- context [Py.gt v1 ?t] =>
             let H := fresh "H" in
             destruct (Py.gt v1 t) eqn:H; [rewrite (gt_upward t v1 v2 H Hle)|]
         end;
    split_tests; vm_compute; intro Hgt; discriminate Hgt.
Qed.

Lemma severity_grows_with_value_witness :
  severity_weight (determine_signal USD_JPY (Some 150%float) (Some 3%float)) <=
  severity_weight (determine_signal USD_JPY (Some 156%float) (Some 3%float)).
Proof.
  apply severity_grows_with_value. reflexivity.
Defined.

(** A value that is not a number passes every test of the ladders as false:
    it is NORMAL under every name and volatility. *)
Theorem nan_is_normal (metric_name : string) (volatility : option float) :
  determine_signal metric_name (Some nan) volatility = NORMAL.
Proof.
  unfold determine_signal.
  destruct (String.eqb metric_name USD_JPY).
  - destruct (volatility_gate volatility); reflexivity.
  - destruct (String.eqb metric_name USD_CNH); [reflexivity|].
    destruct (String.eqb metric_name MOVE_INDEX); [reflexivity|].
    destruct (String.eqb metric_name TREASURY_10Y); reflexivity.
Qed.

(* ===================================================================== *)
(** * More on the composite risk scorer *)
(* ===================================================================== *)

Lemma severity_weight_bounds (s : string) : 0 <= severity_weight s <= 100.
Proof. unfold severity_weight. split_tests; lia. Qed.

Lemma error_weighs_nothing (m : metric) :
  non_error m = false -> severity_weight (signal_of m) = 0.
Proof.
  unfold non_error. intro H. apply negb_false_iff in H.
  apply String.eqb_eq in H. rewrite H. reflexivity.
Qed.

Lemma sum_within_count (ms : list metric) :
  0 <= sum_of_weights ms <= 100 * count_non_error ms /\
  0 <= count_non_error ms <= Z.of_nat (List.length ms).
Proof.
  unfold sum_of_weights, count_non_error.
  induction ms as [|m ms IH]; cbn [map fold_right filter List.length].
  - lia.
  - pose proof (severity_weight_bounds (signal_of m)) as Hb.
    destruct (non_error m) eqn:Hm; cbn [List.length].
    + lia.
    + rewrite (error_weighs_nothing m Hm). lia.
Qed.

(** After the loop the accumulated score lies between 0 and 100 times the
    divisor, and the divisor between 0 and the number of metrics: the exact
    mean of a non-empty divisor is within 0 and 100. *)
Theorem accumulators_bounded (ms : list metric) :
  0 <= fst (fold_left score_step ms (0, 0))
    <= 100 * snd (fold_left score_step ms (0, 0)) /\
  0 <= snd (fold_left score_step ms (0, 0)) <= Z.of_nat (List.length ms).
Proof.
  rewrite score_loop. cbn [fst snd]. rewrite !Z.add_0_l. apply sum_within_count.
Qed.

Lemma sum_without_errors (ms : list metric) :
  sum_of_weights (filter non_error ms) = sum_of_weights ms.
Proof.
  unfold sum_of_weights.
  induction ms as [|m ms IH]; cbn [filter map fold_right]; [reflexivity|].
  destruct (non_error m) eqn:Hm; cbn [map fold_right].
  - rewrite IH. reflexivity.
  - rewrite IH, (error_weighs_nothing m Hm). reflexivity.
Qed.

Lemma count_without_errors (ms : list metric) :
  count_non_error (filter non_error ms) = count_non_error ms.
Proof.
  unfold count_non_error. apply (f_equal Z.of_nat). apply (f_equal (@List.length metric)).
  induction ms as [|m ms IH]; cbn [filter]; [reflexivity|].
  destruct (non_error m) eqn:Hm; cbn [filter]; [rewrite Hm, IH|]; auto.
Qed.

(** Metrics whose signal is DATA_ERROR have no part in the result: the
    scorer returns the same on the list without them. *)
Theorem errors_are_ignored (ms : list metric) :
  calculate_composite_risk_score (filter non_error ms) =
  calculate_composite_risk_score ms.
Proof.
  rewrite !scorer_unfolded. unfold mean_weight.
  rewrite sum_without_errors, count_without_errors. reflexivity.
Qed.

(** The order of the metrics has no part in the result. *)
Theorem order_is_ignored (ms ms' : list metric) :
  Permutation ms ms' ->
  calculate_composite_risk_score ms = calculate_composite_risk_score ms'.
Proof.
  intro Hp. rewrite !scorer_unfolded. unfold mean_weight.
  assert (Hsum : sum_of_weights ms = sum_of_weights ms').
  { unfold sum_of_weights.
    induction Hp; cbn [map fold_right]; try lia. }
  assert (Hcount : count_non_error ms = count_non_error ms').
  { clear Hsum. unfold count_non_error. apply (f_equal Z.of_nat).
    induction Hp; cbn [filter]; try reflexivity.
    - destruct (non_error x); cbn [List.length]; congruence.
    - destruct (non_error x), (non_error y); reflexivity.
    - congruence. }
  rewrite Hsum, Hcount. reflexivity.
Qed.

Lemma order_is_ignored_witness :
  calculate_composite_risk_score (rev yield_fetch_failed) =
  calculate_composite_risk_score yield_fetch_failed.
Proof.
  apply order_is_ignored. apply Permutation_sym, Permutation_rev.
Defined.

(** The level UNKNOWN is returned exactly when every signal is DATA_ERROR,
    the empty list included. *)
Theorem unknown_only_without_signals (ms : list metric) :
  level (calculate_composite_risk_score ms) = "UNKNOWN" <->
  Forall (fun m => signal_of m = DATA_ERROR) ms.
Proof.
  rewrite <- count_non_error_zero, scorer_unfolded.
  destruct (Z.eqb_spec (count_non_error ms) 0) as [Hz|Hz].
  - split; [intros _; exact Hz | reflexivity].
  - cbv zeta. split; [|contradiction].
    split_tests; intro H; discriminate H.
Qed.

(** When some signal is not DATA_ERROR and none weighs anything, the score is
    0.0 and the level LOW. *)
Theorem calm_metrics_score_zero (ms : list metric) :
  Exists (fun m => signal_of m <> DATA_ERROR) ms ->
  Forall (fun m => severity_weight (signal_of m) = 0) ms ->
  calculate_composite_risk_score ms =
    {| score := PFloat 0; level := "LOW"; color := "#28a745" |}.
Proof.
  intros Hex Hall. rewrite scorer_unfolded.
  assert (Hsum : sum_of_weights ms = 0).
  { clear Hex. unfold sum_of_weights.
    induction Hall as [|m ms Hm _ IH]; cbn [map fold_right]; [reflexivity|].
    rewrite Hm, IH. reflexivity. }
  assert (Hcount : exists p, count_non_error ms = Zpos p).
  { destruct (count_non_error ms) as [|p|p] eqn:Hc.
    - exfalso. apply count_non_error_zero in Hc.
      apply Exists_exists in Hex. destruct Hex as [m [Hin Hm]].
      rewrite Forall_forall in Hc. exact (Hm (Hc m Hin)).
    - exists p. reflexivity.
    - pose proof (sum_within_count ms) as Hb. lia. }
  destruct Hcount as [p Hp].
  unfold mean_weight. rewrite Hsum, Hp. reflexivity.
Qed.

Lemma calm_metrics_score_zero_witness :
  calculate_composite_risk_score
    [with_signal NORMAL; with_signal DATA_ERROR; with_signal NORMAL] =
    {| score := PFloat 0; level := "LOW"; color := "#28a745" |}.
Proof.
  apply calm_metrics_score_zero.
  - apply Exists_cons_hd. intro H. vm_compute in H. discriminate H.
  - repeat constructor.
Defined.

(* ===================================================================== *)
(** * More on the volatility calculator *)
(* ===================================================================== *)

Lemma calculate_volatility_spec_witness :
  calculate_volatility Py.float_of_decimal (Some 154%float)
    [jpy_entry (JStr "150.0000"); jpy_entry (JStr "152.0000")] USD_JPY =
  volatility_reference Py.float_of_decimal (Some 154%float)
    [jpy_entry (JStr "150.0000"); jpy_entry (JStr "152.0000")] USD_JPY.
Proof.
  apply calculate_volatility_spec.
  intros entry y [<-|[<-|[]]] H;
    apply (f_equal (fun o => match o with
                             | Some f => Py.truthy f
                             | None => true
                             end)) in H;
    symmetry; exact H.
Defined.

(** An entry without a match for the name, appended as the newest one, does
    not change the result: the comparison falls back on the older entries. *)
Theorem unmatched_entry_is_skipped (float_of_str : string -> option float)
    (current : option float) (history : list snapshot) (entry : snapshot)
    (metric_name : string) :
  matching_value float_of_str metric_name entry = None ->
  calculate_volatility float_of_str current (history ++ [entry]) metric_name =
  calculate_volatility float_of_str current history metric_name.
Proof.
  intro Hnone. unfold calculate_volatility.
  rewrite rev_app_distr. cbn [rev app scan_entries].
  rewrite scan_metrics_spec, Hnone. cbn [Py.truthy_opt].
  destruct (history ++ [entry]) eqn:Happ.
  - destruct history; discriminate Happ.
  - destruct current as [c|]; [|destruct history; reflexivity].
    destruct history as [|e es]; [reflexivity|]. reflexivity.
Qed.

Lemma unmatched_entry_is_skipped_witness :
  calculate_volatility Py.float_of_decimal (Some 154%float)
    ([jpy_entry (JStr "150.0000")] ++ [jpy_entry (JStr "DATA ERROR")]) USD_JPY =
  calculate_volatility Py.float_of_decimal (Some 154%float)
    [jpy_entry (JStr "150.0000")] USD_JPY.
Proof.
  apply unmatched_entry_is_skipped. reflexivity.
Defined.

(** A newest entry that holds a match other than zero decides the result,
    whatever the older entries hold. *)
Theorem newest_match_decides (float_of_str : string -> option float)
    (current y : float) (history : list snapshot) (entry : snapshot)
    (metric_name : string) :
  matching_value float_of_str metric_name entry = Some y ->
  Py.truthy y = true ->
  calculate_volatility float_of_str (Some current) (history ++ [entry]) metric_name =
  Some (PrimFloat.abs (PrimFloat.sub current y)).
Proof.
  intros Hm Hy. unfold calculate_volatility.
  rewrite rev_app_distr. cbn [rev app scan_entries].
  rewrite scan_metrics_spec, Hm. cbn [Py.truthy_opt]. rewrite Hy.
  destruct (history ++ [entry]) eqn:Happ.
  - destruct history; discriminate Happ.
  - cbv iota. rewrite Hy. reflexivity.
Qed.

Lemma newest_match_decides_witness :
  calculate_volatility Py.float_of_decimal (Some 154%float)
    ([jpy_entry (JStr "0.0000"); jpy_entry JNull] ++ [jpy_entry (JStr "152.0000")])
    USD_JPY = Some 2%float.
Proof.
  apply (newest_match_decides Py.float_of_decimal 154%float 152%float); reflexivity.
Defined.

(** The absolute value of a float is not below zero. *)
Lemma abs_not_negative (x : float) : Py.lt (PrimFloat.abs x) 0 = false.
Proof.
  unfold Py.lt. rewrite ltb_spec, abs_spec.
  replace (Prim2SF 0) with (S754_zero false) by reflexivity.
  destruct (Prim2SF x) as [s|s| |s m e]; reflexivity.
Qed.

(** A volatility that is returned is never below zero. *)
Theorem volatility_not_negative (float_of_str : string -> option float)
    (current : option float) (history : list snapshot) (metric_name : string) :
  match calculate_volatility float_of_str current history metric_name with
  | Some v => Py.lt v 0 = false
  | None => True
  end.
Proof.
  unfold calculate_volatility.
  destruct history as [|e es]; [exact I|].
  destruct current as [c|]; [|exact I].
  destruct (scan_entries float_of_str metric_name (rev (e :: es)) None) as [y|];
    [|exact I].
  destruct (Py.truthy y); [apply abs_not_negative | exact I].
Qed.

(* ===================================================================== *)
(** * More on the history store *)
(* ===================================================================== *)

(** What a successful save has written is what the next load returns: the
    last 30 entries of the list saved, which is the whole list when it holds
    at most 30. *)
Theorem load_after_save (E : env) (history : list snapshot) (w : world) :
  history_write E = Written ->
  fst (load_historical_data (snd (save_historical_data E history w))) =
    Ret (last_entries 30 history) /\
  ((List.length history <= 30)%nat -> last_entries 30 history = history).
Proof.
  intro Hw. unfold load_historical_data, save_historical_data.
  cbn [fst snd history_file]. rewrite Hw. split; [reflexivity|].
  intro Hlen. unfold last_entries.
  replace (List.length history - 30)%nat with O by lia. reflexivity.
Qed.

Lemma load_after_save_witness :
  fst (load_historical_data
         (snd (save_historical_data calm_day thirty_one_entries fresh_disk))) =
    Ret (map numbered_entry (seq 1 30)).
Proof.
  exact (proj1 (load_after_save calm_day thirty_one_entries fresh_disk eq_refl)).
Defined.

(** Below 30 entries the append drops nothing; at 30 entries, the state that
    a daily run settles in, it drops the oldest entry and no other. *)
Theorem append_within_window (E : env) (history : list snapshot)
    (final_data : snapshot) (w : world) :
  history_write E = Written ->
  ((List.length history < 30)%nat ->
   history_file (snd (save_historical_data E (history ++ [final_data]) w)) =
     Holds (history ++ [final_data])) /\
  (List.length history = 30%nat ->
   history_file (snd (save_historical_data E (history ++ [final_data]) w)) =
     Holds (tl history ++ [final_data])).
Proof.
  intro Hw. unfold save_historical_data. cbn [snd history_file]. rewrite Hw.
  cbn [written]. rewrite last_entries_app. unfold last_entries.
  split; intro Hlen.
  - replace (List.length history - 29)%nat with O by lia. reflexivity.
  - rewrite Hlen. cbn [Nat.sub]. destruct history; reflexivity.
Qed.

Lemma append_within_window_witness :
  history_file (snd (save_historical_data calm_day
                       ([numbered_entry 0] ++ [numbered_entry 1]) fresh_disk)) =
    Holds [numbered_entry 0; numbered_entry 1] /\
  history_file (snd (save_historical_data calm_day
                       (map numbered_entry (seq 0 30) ++ [numbered_entry 30])
                       fresh_disk)) =
    Holds (map numbered_entry (seq 1 30)).
Proof.
  split.
  - apply (proj1 (append_within_window calm_day [numbered_entry 0]
                    (numbered_entry 1) fresh_disk eq_refl)).
    cbn [List.length]. lia.
  - exact (proj2 (append_within_window calm_day (map numbered_entry (seq 0 30))
                    (numbered_entry 30) fresh_disk eq_refl) eq_refl).
Defined.

(* ===================================================================== *)
(** * More on the metric fetchers *)
(* ===================================================================== *)

Lemma request_eqb_refl (r : request) : request_eqb r r = true.
Proof. destruct r; cbn [request_eqb]; rewrite ?String.eqb_refl; reflexivity. Qed.

(** Sending a request raises its count by one. *)
Lemma sent_before_send (r : request) (w : world) (files : world) :
  sent_before r {| data_file := data_file files;
                   history_file := history_file files;
                   requests_sent := requests_sent w ++ [r] |} =
  S (sent_before r w).
Proof.
  unfold sent_before. cbn [requests_sent].
  rewrite filter_app, length_app. cbn [filter]. rewrite request_eqb_refl.
  cbn [List.length]. lia.
Qed.

Lemma same_files_refl (w : world) : same_files w w.
Proof. split; reflexivity. Qed.

(** The retry loop sends the one request, at least once and at most as often
    as it has attempts, and touches no file, however it ends. *)
Lemma fx_attempts_trace (float_of_str : string -> option float) (E : env)
    (attempts : nat) (r : request) (w : world) :
  exists k,
    (k <= attempts)%nat /\ (attempts <> O -> 1 <= k)%nat /\
    requests_sent (snd (fx_attempts float_of_str E attempts r w)) =
      requests_sent w ++ repeat r k /\
    same_files w (snd (fx_attempts float_of_str E attempts r w)).
Proof.
  revert w. induction attempts as [|n IH]; intro w.
  - exists O. cbn [fx_attempts ret snd repeat]. rewrite app_nil_r.
    repeat split; lia.
  - cbn [fx_attempts]. unfold bind, send.
    destruct (fx_rate_of float_of_str _) as [e|rate].
    + destruct e;
        try (exists 1%nat; cbn [raise snd requests_sent repeat];
             repeat split; lia).
      match goal with
      | |- context [fx_attempts float_of_str E n r ?w1] =>
          destruct (IH w1) as [k [Hk [_ [Htrace [Hd Hh]]]]]
      end.
      exists (S k). rewrite Htrace. cbn [requests_sent repeat].
      rewrite <- app_assoc. cbn [app].
      repeat split; try lia; [rewrite Hd | rewrite Hh]; reflexivity.
    + exists 1%nat. cbn [ret snd requests_sent repeat]. repeat split; lia.
Qed.

(** [fetch_fx_rate] sends between one and three requests, all of them the
    rate request of the symbol, and touches no file, whether it returns a
    rate, returns nothing or raises. *)
Theorem fetch_fx_rate_requests (float_of_str : string -> option float) (E : env)
    (symbol : string) (w : world) :
  exists k,
    (1 <= k <= 3)%nat /\
    requests_sent (snd (fetch_fx_rate float_of_str E symbol w)) =
      requests_sent w ++ repeat (fx_request symbol) k /\
    same_files w (snd (fetch_fx_rate float_of_str E symbol w)).
Proof.
  unfold fetch_fx_rate.
  destruct (fx_attempts_trace float_of_str E 3 (fx_request symbol) w)
    as [k [Hle [Hge [Htrace Hfiles]]]].
  exists k. split; [|split; assumption].
  split; [apply Hge; discriminate | exact Hle].
Qed.

Lemma fetch_fx_rate_transport_failure_witness :
  exists w',
    fetch_fx_rate Py.float_of_decimal network_down "USDJPY" fresh_disk = (Ret None, w') /\
    requests_sent w' =
      requests_sent fresh_disk ++
        [fx_request "USDJPY"; fx_request "USDJPY"; fx_request "USDJPY"].
Proof.
  apply fetch_fx_rate_transport_failure. intro n. left. reflexivity.
Defined.

(** A failure of the transport on the first attempt is made good by the
    second: the rate of the second answer is returned after two requests. *)
Theorem retry_recovers (float_of_str : string -> option float) (E : env)
    (symbol : string) (w : world) (rate : option float) :
  http_get E (fx_request symbol) (sent_before (fx_request symbol) w) = RequestFailed \/
  http_get E (fx_request symbol) (sent_before (fx_request symbol) w) = BodyNotJson ->
  fx_rate_of float_of_str
    (http_get E (fx_request symbol) (S (sent_before (fx_request symbol) w))) = inr rate ->
  fetch_fx_rate float_of_str E symbol w =
    (Ret rate,
     {| data_file := data_file w;
        history_file := history_file w;
        requests_sent := requests_sent w ++ [fx_request symbol; fx_request symbol] |}).
Proof.
  intros Hfirst Hsecond.
  unfold fetch_fx_rate. cbn [fx_attempts]. unfold bind at 1. unfold send at 1.
  fold (sent_before (fx_request symbol) w).
  assert (Hfail : fx_rate_of float_of_str
                    (http_get E (fx_request symbol) (sent_before (fx_request symbol) w))
                  = inl RequestException).
  { destruct Hfirst as [-> | ->]; reflexivity. }
  rewrite Hfail. unfold bind at 1. unfold send at 1.
  match goal with
  | |- context [List.length (filter (request_eqb ?r) (requests_sent ?w1))] =>
      change (List.length (filter (request_eqb r) (requests_sent w1)))
        with (sent_before r w1)
  end.
  rewrite (sent_before_send (fx_request symbol) w w), Hsecond.
  cbn [ret data_file history_file requests_sent].
  rewrite <- app_assoc. reflexivity.
Qed.

Lemma retry_recovers_witness :
  fst (fetch_fx_rate Py.float_of_decimal flaky_network "USDJPY" fresh_disk) =
    Ret (Some 150.25%float).
Proof.
  rewrite (retry_recovers Py.float_of_decimal flaky_network "USDJPY" fresh_disk
             (Some 150.25%float)).
  - reflexivity.
  - left. reflexivity.
  - reflexivity.
Defined.

Lemma dict_mem_lookup {A : Type} (items : list (string * A)) (k : string) :
  dict_mem items k = true -> exists v, dict_lookup items k = Some v.
Proof.
  unfold dict_mem. induction items as [|[k' v] items IH]; cbn [existsb dict_lookup fst].
  - intro H. discriminate H.
  - destruct (String.eqb k' k); [eauto|exact IH].
Qed.

Lemma dict_lookup_mem {A : Type} (items : list (string * A)) (k : string) (v : A) :
  dict_lookup items k = Some v -> dict_mem items k = true.
Proof.
  unfold dict_mem. induction items as [|[k' v'] items IH]; cbn [existsb dict_lookup fst].
  - intro H. discriminate H.
  - destruct (String.eqb k' k); [reflexivity|exact IH].
Qed.

(** An answer that carries the rate-limit note gives the absent value after
    one request, without a retry, even when a rate comes with it. *)
Theorem rate_limit_note_ends_fetch (float_of_str : string -> option float) (E : env)
    (symbol : string) (w : world) (items : list (string * json)) :
  http_get E (fx_request symbol) (sent_before (fx_request symbol) w) = Body (JObj items) ->
  dict_mem items "Note" = true ->
  fetch_fx_rate float_of_str E symbol w =
    (Ret None,
     {| data_file := data_file w;
        history_file := history_file w;
        requests_sent := requests_sent w ++ [fx_request symbol] |}).
Proof.
  intros Hbody Hnote.
  unfold fetch_fx_rate. cbn [fx_attempts]. unfold bind, send.
  fold (sent_before (fx_request symbol) w). rewrite Hbody.
  unfold fx_rate_of. cbn [py_in ebind]. rewrite Hnote.
  destruct (dict_mem_lookup items "Note" Hnote) as [v Hv].
  cbn [py_getitem]. rewrite Hv. reflexivity.
Qed.

Lemma rate_limit_note_ends_fetch_witness :
  fetch_fx_rate Py.float_of_decimal rate_limited "USDJPY" fresh_disk =
    (Ret None,
     {| data_file := Missing; history_file := Missing;
        requests_sent := [FxRate "USD" "JPY"] |}).
Proof.
  eapply (rate_limit_note_ends_fetch Py.float_of_decimal rate_limited "USDJPY" fresh_disk).
  - reflexivity.
  - reflexivity.
Defined.

(** The yield fetcher never raises: whatever the network answers, it returns
    after exactly one request and touches no file. *)
Theorem fetch_treasury_yield_10y_total (float_of_str : string -> option float)
    (E : env) (w : world) :
  exists rate,
    fetch_treasury_yield_10y float_of_str E w =
      (Ret rate,
       {| data_file := data_file w;
          history_file := history_file w;
          requests_sent := requests_sent w ++ [FederalFundsRate] |}).
Proof.
  unfold fetch_treasury_yield_10y, bind, send, ret.
  destruct (treasury_yield_of float_of_str _) as [e|rate]; eauto.
Qed.

(** The yield is read from the first row of the ["data"] array, whatever
    rows follow; an empty array gives the absent value. *)
Theorem yield_is_first_row (float_of_str : string -> option float)
    (items row : list (string * json)) (rows : list json) (v : json) (f : float) :
  (dict_lookup items "data" = Some (JArr (JObj row :: rows)) ->
   dict_lookup row "value" = Some v ->
   py_float float_of_str v = inr f ->
   treasury_yield_of float_of_str (Body (JObj items)) = inr (Some f)) /\
  (dict_lookup items "data" = Some (JArr []) ->
   treasury_yield_of float_of_str (Body (JObj items)) = inr None).
Proof.
  split.
  - intros Hdata Hvalue Hfloat. unfold treasury_yield_of.
    cbn [py_in ebind]. rewrite (dict_lookup_mem items "data" _ Hdata).
    cbn [py_getitem]. rewrite Hdata. cbn [ebind py_len List.length Nat.ltb Nat.leb py_first py_getitem].
    rewrite Hvalue. cbn [ebind]. rewrite Hfloat. reflexivity.
  - intro Hdata. unfold treasury_yield_of.
    cbn [py_in ebind]. rewrite (dict_lookup_mem items "data" _ Hdata).
    cbn [py_getitem]. rewrite Hdata. reflexivity.
Qed.

Lemma yield_is_first_row_witness :
  treasury_yield_of Py.float_of_decimal
    (Body (JObj [("name", JStr "Effective Federal Funds Rate");
                 ("data", JArr [JObj [("date", JStr "2026-01-01"); ("value", JStr "4.33")];
                                JObj [("date", JStr "2025-12-31"); ("value", JStr "4.58")]])]))
    = inr (Some 4.33%float) /\
  treasury_yield_of Py.float_of_decimal (Body (JObj [("data", JArr [])])) = inr None.
Proof.
  split.
  - eapply (proj1 (yield_is_first_row Py.float_of_decimal _ _ _ _ _)); reflexivity.
  - apply (proj2 (yield_is_first_row Py.float_of_decimal _ [] [] JNull 0%float)).
    reflexivity.
Defined.

(* ===================================================================== *)
(** * More on the insight generator *)
(* ===================================================================== *)

(** Without the credential of the insight service nothing is sent: the
    generator returns the fixed pair of placeholders and leaves the world as
    it is. *)
Theorem missing_insight_credential (json_loads : string -> string + list (string * json))
    (E : env) (ms : list metric) (w : world) :
  key_present (OPENROUTER_API_KEY E) = false ->
  generate_ai_insights json_loads E ms w =
    (Ret (placeholder_pair "AI Analysis Unavailable (Missing API Key)"), w).
Proof.
  intro H. unfold generate_ai_insights. rewrite H. reflexivity.
Qed.

Lemma missing_insight_credential_witness :
  generate_ai_insights no_json no_insight_credential yield_fetch_failed fresh_disk =
    (Ret (placeholder_pair "AI Analysis Unavailable (Missing API Key)"), fresh_disk).
Proof.
  apply missing_insight_credential. reflexivity.
Defined.

(** A run of the generator: it returns, after at most one request, with
    both files as they were. *)
Lemma generate_ai_insights_run (json_loads : string -> string + list (string * json))
    (E : env) (ms : list metric) (w : world) :
  exists ai k,
    (k <= 1)%nat /\
    generate_ai_insights json_loads E ms w =
      (Ret ai,
       {| data_file := data_file w;
          history_file := history_file w;
          requests_sent := requests_sent w ++ repeat ChatCompletion k |}).
Proof.
  unfold generate_ai_insights, bind, post_chat, ret.
  destruct (negb (key_present (OPENROUTER_API_KEY E))).
  - eexists. exists O. split; [lia|]. cbn [repeat]. rewrite app_nil_r.
    destruct w; reflexivity.
  - destruct (insights_of json_loads _); eexists; exists 1%nat;
      (split; [lia | reflexivity]).
Qed.

(** The insight generator never raises, whatever the service replies and
    whatever the decoder does with it; it sends at most one request, to the
    chat-completion endpoint, and touches no file. *)
Theorem generate_ai_insights_total (json_loads : string -> string + list (string * json))
    (E : env) (ms : list metric) (w : world) :
  exists ai w',
    generate_ai_insights json_loads E ms w = (Ret ai, w') /\
    same_files w w' /\
    (requests_sent w' = requests_sent w \/
     requests_sent w' = requests_sent w ++ [ChatCompletion]).
Proof.
  destruct (generate_ai_insights_run json_loads E ms w) as [ai [k [Hk Hrun]]].
  exists ai. eexists. split; [exact Hrun|].
  split; [split; reflexivity|].
  cbn [requests_sent].
  destruct k as [|[|k]]; [left; apply app_nil_r | right; reflexivity | lia].
Qed.

Lemma failure_gives_one_placeholder_witness :
  fst (generate_ai_insights no_json network_down yield_fetch_failed fresh_disk) =
    Ret (placeholder_pair "AI Analysis Failed: HTTPSConnectionPool: Max retri...").
Proof.
  apply (failure_gives_one_placeholder no_json network_down yield_fetch_failed
           "HTTPSConnectionPool: Max retries exceeded" fresh_disk);
    reflexivity.
Defined.

Lemma string_length_append (s1 s2 : string) :
  String.length (s1 ++ s2)%string = (String.length s1 + String.length s2)%nat.
Proof.
  induction s1 as [|c s1 IH]; cbn [String.append String.length]; [reflexivity|].
  rewrite IH. reflexivity.
Qed.

Lemma substring_length_le (s : string) (n m : nat) :
  (String.length (String.substring n m s) <= m)%nat.
Proof.
  revert n m. induction s as [|c s IH]; intros n m.
  - destruct n, m; cbn [String.substring String.length]; lia.
  - destruct n as [|n].
    + destruct m as [|m]; cbn [String.substring String.length]; [lia|].
      specialize (IH O m). lia.
    + cbn [String.substring]. apply IH.
Qed.

(** The placeholder shown for a failure is at most 53 characters long,
    however long the message of the exception is. *)
Theorem placeholder_is_short (error_str : string) :
  (String.length (ui_error error_str) <= 53)%nat.
Proof.
  unfold ui_error.
  destruct (Py.contains "401" error_str); [vm_compute; lia|].
  destruct (Py.contains "429" error_str); [vm_compute; lia|].
  destruct (_ || _); [vm_compute; lia|].
  rewrite !string_length_append. unfold Py.take.
  pose proof (substring_length_le error_str 0 30) as H.
  change (String.length "AI Analysis Failed: ") with 20%nat.
  change (String.length "...") with 3%nat. lia.
Qed.

Lemma dict_get_lookup {A : Type} (items : list (string * A)) (k : string) (d : A) :
  dict_get items k d = match dict_lookup items k with
                       | Some v => v
                       | None => d
                       end.
Proof.
  induction items as [|[k' v'] items IH]; cbn [dict_get dict_lookup]; [reflexivity|].
  destruct (String.eqb k' k); [reflexivity | exact IH].
Qed.

(** When the decoder accepts the span found in the reply, the two fields are
    the values under the two keys of the object, and a key that the object
    lacks is replaced by the text "Analysis Data Missing". *)
Theorem decoded_reply_gives_fields (json_loads : string -> string + list (string * json))
    (E : env) (ms : list metric) (content span : string)
    (parsed_content : list (string * json)) (w : world) :
  key_present (OPENROUTER_API_KEY E) = true ->
  chat_completion E ms = AiContent content ->
  Py.search_braces content = Some span ->
  json_loads span = inr parsed_content ->
  fst (generate_ai_insights json_loads E ms w) =
    Ret {| stock_picks :=
             match dict_lookup parsed_content "stock_picks" with
             | Some v => v
             | None => JStr "Analysis Data Missing"
             end;
           tasi_opportunities :=
             match dict_lookup parsed_content "tasi_opportunities" with
             | Some v => v
             | None => JStr "Analysis Data Missing"
             end |}.
Proof.
  intros Hkey Hreply Hspan Hloads.
  unfold generate_ai_insights. rewrite Hkey. cbn [negb].
  unfold bind, post_chat. rewrite Hreply. unfold insights_of.
  rewrite Hspan, Hloads. cbn [fst ret].
  rewrite !dict_get_lookup. reflexivity.
Qed.

Lemma decoded_reply_gives_fields_witness :
  fst (generate_ai_insights decodes_stock_picks half_answer yield_fetch_failed fresh_disk) =
    Ret {| stock_picks := JStr "<ul><li>Gold</li></ul>";
           tasi_opportunities := JStr "Analysis Data Missing" |}.
Proof.
  apply (decoded_reply_gives_fields decodes_stock_picks half_answer yield_fetch_failed
           "Here it is: {stock_picks: gold}" "{stock_picks: gold}"
           [("stock_picks", JStr "<ul><li>Gold</li></ul>")] fresh_disk);
    reflexivity.
Defined.

(** A failure whose message holds the digits 401 is shown as an invalid
    credential, whatever its cause: so is a reply that the decoder rejects
    at character 401. *)
Theorem digits_401_read_as_credential (json_loads : string -> string + list (string * json))
    (E : env) (ms : list metric) (content span msg : string) (w : world) :
  key_present (OPENROUTER_API_KEY E) = true ->
  chat_completion E ms = AiContent content ->
  Py.search_braces content = Some span ->
  json_loads span = inl msg ->
  Py.contains "401" msg = true ->
  fst (generate_ai_insights json_loads E ms w) =
    Ret (placeholder_pair "AI Configuration Error: Invalid API Key (401)").
Proof.
  intros Hkey Hreply Hspan Hloads H401.
  unfold generate_ai_insights. rewrite Hkey. cbn [negb].
  unfold bind, post_chat. rewrite Hreply. unfold insights_of.
  rewrite Hspan, Hloads. cbn [fst ret]. unfold ui_error. rewrite H401.
  reflexivity.
Qed.

Lemma digits_401_read_as_credential_witness :
  fst (generate_ai_insights fails_at_char_401 half_answer yield_fetch_failed fresh_disk) =
    Ret (placeholder_pair "AI Configuration Error: Invalid API Key (401)").
Proof.
  apply (digits_401_read_as_credential fails_at_char_401 half_answer yield_fetch_failed
           "Here it is: {stock_picks: gold}" "{stock_picks: gold}"
           "Expecting value: line 9 column 12 (char 401)" fresh_disk);
    reflexivity.
Defined.


(* ===================================================================== *)
(** * More on the cycle *)
(* ===================================================================== *)

Lemma fetch_fx_rate_frame (float_of_str : string -> option float) (E : env)
    (symbol : string) (w : world) :
  same_files w (snd (fetch_fx_rate float_of_str E symbol w)) /\
  (List.length (requests_sent (snd (fetch_fx_rate float_of_str E symbol w))) <=
   List.length (requests_sent w) + 3)%nat.
Proof.
  unfold fetch_fx_rate.
  destruct (fx_attempts_trace float_of_str E 3 (fx_request symbol) w)
    as [k [Hle [_ [Htrace Hfiles]]]].
  split; [exact Hfiles|].
  rewrite Htrace, length_app, repeat_length. lia.
Qed.

(** The three ways a cycle with the credential ends: an exception of a rate
    fetcher, with both files as they were; an exception of the write of the
    current snapshot, with that file truncated and the history as it was; or
    the return, with each file written as its write ends, from the metrics
    built on the history loaded.  In every case at most eight requests are
    sent. *)
Lemma cycle_cases (float_of_str : string -> option float)
    (json_loads : string -> string + list (string * json)) (E : env) (w : world) :
  key_present (API_KEY E) = true ->
  ((exists e, fst (update_tracing_data float_of_str json_loads E w) = Raise e /\
              same_files w (snd (update_tracing_data float_of_str json_loads E w))) \/
   (exists e, data_write E = DumpRaises e /\
              fst (update_tracing_data float_of_str json_loads E w) = Raise e /\
              data_file (snd (update_tracing_data float_of_str json_loads E w)) = Unreadable /\
              history_file (snd (update_tracing_data float_of_str json_loads E w)) =
                history_file w) \/
   (exists usd_jpy usd_cnh treasury_10y ai,
       let final_data :=
         build_final_data E
           (build_metrics float_of_str (loaded_history w) usd_jpy usd_cnh treasury_10y)
           ai in
       fst (update_tracing_data float_of_str json_loads E w) = Ret tt /\
       data_file (snd (update_tracing_data float_of_str json_loads E w)) =
         written (data_write E) final_data (data_file w) /\
       history_file (snd (update_tracing_data float_of_str json_loads E w)) =
         written (history_write E)
           (last_entries 30 (loaded_history w ++ [final_data])) (history_file w))) /\
  (List.length (requests_sent (snd (update_tracing_data float_of_str json_loads E w))) <=
   List.length (requests_sent w) + 8)%nat.
Proof.
  intro Hkey.
  remember (update_tracing_data float_of_str json_loads E w) as run eqn:Hrun.
  unfold update_tracing_data in Hrun. rewrite Hkey in Hrun. cbn [negb] in Hrun.
  unfold bind at 1 in Hrun. unfold load_historical_data at 1 in Hrun.
  fold (loaded_history w) in Hrun.
  unfold bind at 1 in Hrun.
  destruct (fetch_fx_rate_frame float_of_str E "USDJPY" w) as [[Hd1 Hh1] Hn1].
  destruct (fetch_fx_rate float_of_str E "USDJPY" w) as [[usd_jpy|e] w1];
    cbn [snd] in Hd1, Hh1, Hn1.
  2:{ subst run. cbn [fst snd]. split; [|lia]. left. exists e.
      split; [reflexivity|]. split; assumption. }
  unfold bind at 1 in Hrun.
  destruct (fetch_fx_rate_frame float_of_str E "USDCNH" w1) as [[Hd2 Hh2] Hn2].
  destruct (fetch_fx_rate float_of_str E "USDCNH" w1) as [[usd_cnh|e] w2];
    cbn [snd] in Hd2, Hh2, Hn2.
  2:{ subst run. cbn [fst snd]. split; [|lia]. left. exists e.
      split; [reflexivity|]. split; congruence. }
  unfold bind at 1 in Hrun. unfold fetch_treasury_yield_10y at 1 in Hrun.
  unfold bind at 1 in Hrun. unfold send at 1 in Hrun.
  set (w3 := {| data_file := data_file w2;
                history_file := history_file w2;
                requests_sent := requests_sent w2 ++ [FederalFundsRate] |}) in Hrun.
  assert (Htreasury : exists t,
             (match treasury_yield_of float_of_str
                      (http_get E FederalFundsRate
                         (List.length (filter (request_eqb FederalFundsRate)
                                         (requests_sent w2)))) with
              | inr rate => ret rate
              | inl _ => ret None
              end) w3 = (Ret t, w3)).
  { destruct (treasury_yield_of float_of_str _); eexists; reflexivity. }
  destruct Htreasury as [t Ht]. rewrite Ht in Hrun.
  unfold bind at 1 in Hrun.
  destruct (generate_ai_insights_run json_loads E
              (build_metrics float_of_str (loaded_history w) usd_jpy usd_cnh t) w3)
    as [ai [k [Hk Hgen]]].
  rewrite Hgen in Hrun.
  unfold bind, write_data_file, save_historical_data in Hrun.
  cbn [fst snd data_file history_file requests_sent] in Hrun.
  destruct (data_write E) as [ | | |e] eqn:Hdata;
    subst run w3; cbn [fst snd data_file history_file requests_sent written];
    (split; [| rewrite !length_app, repeat_length; cbn [List.length]; lia]).
  - right. right. exists usd_jpy, usd_cnh, t, ai. cbv zeta.
    split; [reflexivity|]. rewrite Hh2, Hh1. split; reflexivity.
  - right. right. exists usd_jpy, usd_cnh, t, ai. cbv zeta.
    split; [reflexivity|]. rewrite Hd2, Hd1, Hh2, Hh1. split; reflexivity.
  - right. right. exists usd_jpy, usd_cnh, t, ai. cbv zeta.
    split; [reflexivity|]. rewrite Hh2, Hh1. split; reflexivity.
  - right. left. exists e. split; [reflexivity|]. split; [reflexivity|].
    split; [reflexivity|]. rewrite Hh2, Hh1. reflexivity.
Qed.

(** A cycle that ends in an exception has not changed the history file:
    the exception comes from a rate fetcher, before any write, or from the
    write of the current snapshot, before the append. *)
Theorem failed_cycle_keeps_history (float_of_str : string -> option float)
    (json_loads : string -> string + list (string * json)) (E : env)
    (w w' : world) (e : exn) :
  update_tracing_data float_of_str json_loads E w = (Raise e, w') ->
  history_file w' = history_file w.
Proof.
  intro Hrun.
  destruct (key_present (API_KEY E)) eqn:Hkey.
  - destruct (cycle_cases float_of_str json_loads E w Hkey)
      as [[Hfetch|[Hwrite|Hret]] _];
      rewrite Hrun in *; cbn [fst snd] in *.
    + destruct Hfetch as [_ [_ [_ Hh]]]. exact Hh.
    + destruct Hwrite as [_ [_ [_ [_ Hh]]]]. exact Hh.
    + destruct Hret as [_ [_ [_ [_ [Hfst _]]]]]. discriminate Hfst.
  - unfold update_tracing_data in Hrun. rewrite Hkey in Hrun. discriminate Hrun.
Qed.

Lemma failed_cycle_keeps_history_witness :
  history_file
    (snd (update_tracing_data Py.float_of_decimal decodes_stock_picks
            surrogate_in_reply (disk_with thirty_one_entries))) =
  Holds thirty_one_entries.
Proof.
  apply (failed_cycle_keeps_history Py.float_of_decimal decodes_stock_picks
           surrogate_in_reply (disk_with thirty_one_entries) _ ValueError).
  reflexivity.
Defined.

(** The exception of the write of the current snapshot at work: the file is
    left truncated, the history is not appended, and the exception leaves
    the cycle; an exception of a rate fetcher leaves both files as they
    were. *)
Example failed_cycle_runs :
  update_tracing_data Py.float_of_decimal decodes_stock_picks
    surrogate_in_reply (disk_with thirty_one_entries) =
    (Raise ValueError,
     {| data_file := Unreadable;
        history_file := Holds thirty_one_entries;
        requests_sent := [FxRate "USD" "JPY"; FxRate "USD" "CNH";
                          FederalFundsRate; ChatCompletion] |}) /\
  update_tracing_data Py.float_of_decimal no_json malformed_rate
    (disk_with thirty_one_entries) =
    (Raise ValueError,
     {| data_file := Missing;
        history_file := Holds thirty_one_entries;
        requests_sent := [FxRate "USD" "JPY"] |}).
Proof. split; reflexivity. Qed.

(** A cycle that returns with the credential present has written each file
    as its own write ended: the current snapshot and the window of the
    history loaded, extended by that snapshot.  A failure of the first write
    does not keep the history from being appended. *)
Theorem completed_cycle_writes (float_of_str : string -> option float)
    (json_loads : string -> string + list (string * json)) (E : env) (w w' : world) :
  key_present (API_KEY E) = true ->
  update_tracing_data float_of_str json_loads E w = (Ret tt, w') ->
  exists usd_jpy usd_cnh treasury_10y ai,
    let final_data :=
      build_final_data E
        (build_metrics float_of_str (loaded_history w) usd_jpy usd_cnh treasury_10y)
        ai in
    data_file w' = written (data_write E) final_data (data_file w) /\
    history_file w' =
      written (history_write E)
        (last_entries 30 (loaded_history w ++ [final_data])) (history_file w).
Proof.
  intros Hkey Hrun.
  destruct (cycle_cases float_of_str json_loads E w Hkey)
    as [[Hfetch|[Hwrite|Hret]] _];
    rewrite Hrun in *; cbn [fst snd] in *.
  - destruct Hfetch as [e [Hfst _]]. discriminate Hfst.
  - destruct Hwrite as [e [_ [Hfst _]]]. discriminate Hfst.
  - destruct Hret as [usd_jpy [usd_cnh [t [ai [_ Hfiles]]]]].
    exists usd_jpy, usd_cnh, t, ai. exact Hfiles.
Qed.

Lemma completed_cycle_writes_witness :
  data_file (snd (update_tracing_data Py.float_of_decimal no_json data_file_locked
                    (disk_with [numbered_entry 0]))) = Missing /\
  exists final_data,
    history_file (snd (update_tracing_data Py.float_of_decimal no_json data_file_locked
                         (disk_with [numbered_entry 0]))) =
      Holds [numbered_entry 0; final_data].
Proof.
  destruct (completed_cycle_writes Py.float_of_decimal no_json data_file_locked
              (disk_with [numbered_entry 0]) _ eq_refl eq_refl)
    as [usd_jpy [usd_cnh [t [ai [Hdata Hhistory]]]]].
  split; [exact Hdata|]. eexists. exact Hhistory.
Defined.

(** A cycle sends at most eight requests, however it ends: up to three for
    each of the two rates, one for the yield and one for the insights. *)
Theorem cycle_requests_bounded (float_of_str : string -> option float)
    (json_loads : string -> string + list (string * json)) (E : env) (w : world) :
  (List.length (requests_sent (snd (update_tracing_data float_of_str json_loads E w))) <=
   List.length (requests_sent w) + 8)%nat.
Proof.
  destruct (key_present (API_KEY E)) eqn:Hkey.
  - apply (cycle_cases float_of_str json_loads E w Hkey).
  - unfold update_tracing_data. rewrite Hkey. cbn [negb ret snd]. lia.
Qed.

Lemma cycle_saves_window_witness :
  exists final_data,
    history_file (snd (update_tracing_data Py.float_of_decimal no_json calm_day
                         (disk_with thirty_one_entries))) =
      Holds (last_entries 30 (loaded_history (disk_with thirty_one_entries) ++ [final_data])).
Proof.
  apply (cycle_saves_window Py.float_of_decimal no_json calm_day
           (disk_with thirty_one_entries)); reflexivity.
Defined.

(** The volatility-index proxy is the constant 45.0, RISING_STRESS in every
    cycle: the metrics of a cycle never have the level UNKNOWN, even when
    all three fetches fail. *)
Theorem cycle_level_is_known (float_of_str : string -> option float)
    (history : list snapshot) (usd_jpy usd_cnh treasury_10y : option float) :
  level (calculate_composite_risk_score
           (build_metrics float_of_str history usd_jpy usd_cnh treasury_10y))
    <> "UNKNOWN".
Proof.
  rewrite scorer_unfolded.
  destruct (Z.eqb_spec
              (count_non_error
                 (build_metrics float_of_str history usd_jpy usd_cnh treasury_10y)) 0)
    as [Hz|Hz].
  - exfalso. apply count_non_error_zero in Hz. rewrite Forall_forall in Hz.
    specialize (Hz {| name := MOVE_INDEX;
                      value := value_text 2 EmptyString move_proxy;
                      signal := Some (determine_signal MOVE_INDEX move_proxy None);
                      volatility_24h := None |}).
    assert (Hin : signal_of
                    {| name := MOVE_INDEX;
                       value := value_text 2 EmptyString move_proxy;
                       signal := Some (determine_signal MOVE_INDEX move_proxy None);
                       volatility_24h := None |} = DATA_ERROR).
    { apply Hz. unfold build_metrics. right. right. left. reflexivity. }
    vm_compute in Hin. discriminate Hin.
  - cbv zeta. split_tests; intro H; discriminate H.
Qed.
